(** * Route compiler and request rewriter of the HTTP API client

    A shallow embedding of [make], the per-method constructors, the [Client]
    class and the [layer] request rewriter, together with the properties the
    specification states about them.

    Conventions of the embedding.
    - An [Effect] is modelled by what running it yields: the ordered list of
      calls it makes into user-supplied descriptor functions and injected
      capabilities, and its exit (success value or failure cause).
      [Effect.gen] with [yield*] is monadic sequencing; a failing step ends
      the generator.
    - [x.pipe(f, g)] is [g (f x)]: the method applies the functions to the
      object it is called on, as every use in the source shows
      ([request.pipe((req) => ...)], [client.pipe((client) => ...)],
      [Schema.parseJson(schema).pipe(Schema.decodeUnknown)]).
    - The schema engine, the JSON body constructor and the transport are
      capabilities the code receives; they are parameters here. *)

From stdpp Require Import base numbers strings pretty gmap sorting.

Local Open Scope Z_scope.

(** ** JavaScript values used by the code *)

(** The two families of runtime values the code never inspects: [any] /
    [unknown] values and Effect schemas; and the payload type of
    [HttpBody.json]. *)
Class Values := {
  Any : Type;
  Schema : Type;
  HttpBody : Type
}.

(** A property of an object literal: the key may be missing, or present with
    the value [undefined], or present with a value.  Reading a property
    ([o.k], [!o.k], [o.k && ...]) does not tell the first two apart; the
    spread [{...o}] and ["k" in o] do. *)
Inductive Field (A : Type) : Type :=
| Absent : Field A
| Given : option A -> Field A.
Arguments Absent {A}.
Arguments Given {A} _.

(** [o.k] *)
Definition read {A : Type} (f : Field A) : option A :=
  match f with
  | Absent => None
  | Given v => v
  end.

(** [{k: d, ...o}.k] : the spread copies every own key of [o], also one whose
    value is [undefined]. *)
Definition spread {A : Type} (d : option A) (f : Field A) : option A :=
  match f with
  | Absent => d
  | Given v => v
  end.

(** [!x] for [x : boolean | undefined] *)
Definition falsy (b : option bool) : bool :=
  match b with
  | Some true => false
  | _ => true
  end.

(** [Headers.Headers] of the platform: a record from header name to value. *)
Abbreviation Headers := (gmap string string).

Inductive HttpMethod : Type := GET | POST | PUT | DELETE | PATCH | HEAD | OPTIONS.

Module Make.

Section Embedding.
Context `{V : Values}.

(** *** Failures

    The error channel of the compiled route is an untagged union in the
    source; the constructors name where a value entered it. *)
Inductive ResponseErrorReason : Type := StatusCode | DecodeBody | EmptyBody.

(** An exception thrown while the generator runs; [Effect.gen] turns it into
    a defect, with which the route dies. *)
Inductive Defect : Type :=
| InvalidUrl               (* [new URL(x)] on a text that is not a URL *)
| ClassCalledWithoutNew.   (* a class called as a function *)

Inductive Cause : Type :=
| Fail (e : Any)                               (* [Effect.fail(e)] and failures of user functions *)
| ParseError (issue : Any)                     (* [Schema.decodeUnknown] / [Schema.encode] *)
| ResponseError (reason : ResponseErrorReason) (* the platform: unreadable body, filtered status *)
| RequestError (e : Any)                       (* the transport *)
| HttpBodyError (e : Any)                      (* [HttpBody.json] *)
| Die (d : Defect).                            (* a thrown exception *)

Inductive Exit (A : Type) : Type :=
| Success (a : A)
| Failure (c : Cause).
Arguments Success {A} a.
Arguments Failure {A} c.

(** [HttpClientResponse]: the status and the [json] effect of the response,
    given by its exit. *)
Record HttpClientResponse : Type := {
  status : Z;
  json : Exit Any
}.

(** *** Descriptors

    A descriptor is a static value, a schema or a function, as the union
    types of the source declare.  An Effect schema is a class: at run time
    [typeof schema] is ["function"], as for a function, and calling it
    without [new] throws a [TypeError]. *)

(** [type UrlFunction = string | ((arg: any) => string)] *)
Inductive UrlFunction : Type :=
| UrlString (s : string)
| UrlFn (f : Any -> string).

(** [type HeadersFunction = Headers | ((arg: any) => Effect<Headers, any, any>) | undefined];
    [undefined] is [None] of the option the field is read at. *)
Inductive HeadersFunction : Type :=
| HeadersValue (h : Headers)
| HeadersFn (f : Any -> Any + Headers).

(** What a route succeeds with: the response object itself, or another
    value. *)
Inductive Output : Type :=
| Raw (r : HttpClientResponse)
| Value (v : Any).

(** [type OutputFunction = Schema | ((res) => Effect<any, any, any>)]; the
    function may succeed with any value, the response among them. *)
Inductive OutputFunction : Type :=
| OutputSchema (s : Schema)
| OutputFn (f : HttpClientResponse -> Any + Output).

(** [type ErrorFunction = Schema | ((res) => any)] *)
Inductive ErrorFunction : Type :=
| ErrorSchema (s : Schema)
| ErrorFn (f : HttpClientResponse -> Any).

(** [class Route]: the fields as property reads see them. *)
Record Route : Type := {
  url : UrlFunction;
  method : HttpMethod;
  headers : option HeadersFunction;
  body : option Schema;
  response : option OutputFunction;
  error : option ErrorFunction;
  filterStatusOk : option bool
}.

(** The parameter bag of a compiled route.  [Some v] is a key that is present
    (["url" in params]); [v] may be any value, also [undefined]. *)
Record Params : Type := {
  p_url : option Any;
  p_headers : option Any;
  p_body : option Any
}.

(** *** Requests as [make] assembles them

    The header set of a request has two sources, kept apart here:
    [req_headers] is the value [make] hands to [setHeaders], which the
    platform merges into the empty header set of the new request (the cast
    [spec.headers as Headers.Headers] does nothing at run time, so this can
    be a function value); [req_bodyHeaders] are the headers [setBody] then
    sets from the body, over any of the same name. *)
Record HttpClientRequest : Type := {
  req_method : HttpMethod;
  req_url : UrlFunction;
  req_headers : option HeadersFunction;
  req_body : option HttpBody;
  req_bodyHeaders : Headers
}.

(** [HttpClientRequest.make(method)(url)].  A string is stored as the URL;
    anything else goes through [new URL(url.toString())], which throws for
    the source text of a function (the cast [spec.url as string] does
    nothing at run time). *)
Definition HttpClientRequest_make (m : HttpMethod) (u : UrlFunction)
  : Exit HttpClientRequest :=
  match u with
  | UrlString _ =>
      Success {| req_method := m; req_url := u; req_headers := None;
                 req_body := None; req_bodyHeaders := ∅ |}
  | UrlFn _ => Failure (Die InvalidUrl)
  end.

(** [HttpClientRequest.setHeaders(req, headers)], on the empty header set of a
    request that was just made. *)
Definition setHeaders (req : HttpClientRequest) (h : HeadersFunction) : HttpClientRequest :=
  {| req_method := req_method req; req_url := req_url req;
     req_headers := Some h; req_body := req_body req;
     req_bodyHeaders := req_bodyHeaders req |}.

(** *** Effects *)

Inductive Event : Type :=
| CallUrl (arg : Any)                  (* [spec.url(params.url)] *)
| CallHeaders (arg : Any)              (* [spec.headers(params.headers)] *)
| Execute (req : HttpClientRequest)    (* [client.execute(request)] *)
| GetError (r : HttpClientResponse)    (* [getError] entered *)
| GetResponse (r : HttpClientResponse) (* [getResponse] entered *)
| ReadJson (r : HttpClientResponse)    (* [yield* response.json] *)
| Decode (s : Schema) (j : Any)        (* [Schema.decodeUnknown(s)(j)] *)
| CallErrorFn (r : HttpClientResponse)    (* [getter(response)] in [getError] *)
| CallResponseFn (r : HttpClientResponse). (* [getter(response)] in [getResponse] *)

(** The events of a route up to and including the request. *)
Definition requestEvent (ev : Event) : bool :=
  match ev with
  | CallUrl _ | CallHeaders _ | Execute _ => true
  | _ => false
  end.

Definition Effect (A : Type) : Type := (list Event * Exit A)%type.

Definition events {A : Type} (e : Effect A) : list Event := fst e.
Definition exit {A : Type} (e : Effect A) : Exit A := snd e.

(** [Effect.succeed] / [return] of a generator *)
Definition succeed {A : Type} (a : A) : Effect A := ([], Success a).

(** [Effect.fail] *)
Definition fail {A : Type} (c : Cause) : Effect A := ([], Failure c).

(** [yield*] followed by the rest of the generator *)
Definition andThen {A B : Type} (m : Effect A) (k : A -> Effect B) : Effect B :=
  match m with
  | (l, Success a) => let '(l', r) := k a in (l ++ l', r)
  | (l, Failure c) => (l, Failure c)
  end.

(** One call into a capability or a user function. *)
Definition call {A : Type} (ev : Event) (r : Exit A) : Effect A := ([ev], r).

(** The exit of a user function returning [Effect<A, any, any>]. *)
Definition ofUser {A : Type} (r : Any + A) : Exit A :=
  match r with
  | inl e => Failure (Fail e)
  | inr a => Success a
  end.

(** The argument of [HttpBody.json(body: unknown)]: a plain value, or an
    Effect object (a description that nobody ran). *)
Inductive Unknown : Type :=
| JsValue (v : Any)
| JsEffect (e : Effect Any).

(** [HttpClient.HttpClient]: the transport, by the exit of [execute]. *)
Definition HttpClient : Type := HttpClientRequest -> Exit HttpClientResponse.

End Embedding.

Arguments Success {V A} a.
Arguments Failure {V A} c.

#[global] Instance Effect_ret `{V : Values} : MRet Effect := fun A a => succeed a.
#[global] Instance Effect_bind `{V : Values} : MBind Effect := fun A B k m => andThen m k.

(** ** Injected capabilities *)
Class Platform `{V : Values} := {
  (** [Schema.parseJson(schema)] *)
  Schema_parseJson : Schema -> Schema;
  (** [Schema.decodeUnknown(schema)(u)]: the parse issue or the decoded value *)
  decodeUnknown : Schema -> Any -> Any + Any;
  (** [Schema.encode(schema)(a)]: the parse issue or the encoded value *)
  encode : Schema -> Any -> Any + Any;
  (** [HttpBody.json(body)]: the [HttpBodyError] or the JSON body *)
  HttpBody_json : Unknown -> Any + HttpBody;
  (** [body.contentType] and [body.contentLength] of such a body *)
  contentType : HttpBody -> string;
  contentLength : HttpBody -> nat
}.

(** ** The route compiler *)
Section Compiler.
Context `{P : Platform}.

(** [response.json] *)
Definition response_json (r : HttpClientResponse) : Effect Any :=
  call (ReadJson r) (json r).

(** [Schema.decodeUnknown(schema)(u)] as an effect *)
Definition Schema_decodeUnknown (s : Schema) (u : Any) : Effect Any :=
  call (Decode s u)
       (match decodeUnknown s u with
        | inl issue => Failure (ParseError issue)
        | inr v => Success v
        end).

(** [Schema.encode(schema)(a)]: the Effect object the call returns. *)
Definition Schema_encode (s : Schema) (a : Any) : Effect Any :=
  ([], match encode s a with
       | inl issue => Failure (ParseError issue)
       | inr v => Success v
       end).

(** [HttpBody.json(body)] as an effect *)
Definition HttpBody_json_effect (u : Unknown) : Effect HttpBody :=
  ([], match HttpBody_json u with
       | inl e => Failure (HttpBodyError e)
       | inr b => Success b
       end).

(** [client.execute(request)] *)
Definition execute (client : HttpClient) (req : HttpClientRequest) : Effect HttpClientResponse :=
  call (Execute req) (client req).

(** [HttpClient.filterStatusOk(client)] of the platform: the response of the
    wrapped client passes when its status is in 200..299, and is replaced by
    a [ResponseError] with reason [StatusCode] otherwise. *)
Definition HttpClient_filterStatusOk (client : HttpClient) : HttpClient :=
  fun req =>
    match client req with
    | Success r =>
        if (200 <=? status r) && (status r <? 300)
        then Success r
        else Failure (ResponseError StatusCode)
    | Failure c => Failure c
    end.

(** [HttpClientRequest.setBody(req, body)] for the body [HttpBody.json]
    makes: the body is stored, and the header [content-type] is set when
    [body.contentType] is truthy, the header [content-length] when
    [body.contentLength] is. *)
Definition setBody (req : HttpClientRequest) (b : HttpBody) : HttpClientRequest :=
  let hs := req_bodyHeaders req in
  let hs := if String.eqb (contentType b) EmptyString then hs
            else <[ "content-type" := contentType b ]> hs in
  let hs := if Nat.eqb (contentLength b) 0 then hs
            else <[ "content-length" := pretty (contentLength b) ]> hs in
  {| req_method := req_method req; req_url := req_url req;
     req_headers := req_headers req; req_body := Some b;
     req_bodyHeaders := hs |}.

(** [typeof getter === "function"] on a response descriptor, with what the
    call [getter(response)] does when the test holds: a function runs; a
    schema, being a class, passes the test as well and throws when called.
    The right side is a descriptor that is not a function, narrowed to a
    schema. *)
Definition typeofFunction_output (getter : OutputFunction)
  : (HttpClientResponse -> Exit Output) + Schema :=
  match getter with
  | OutputFn f => inl (fun r => ofUser (f r))
  | OutputSchema _ => inl (fun _ => Failure (Die ClassCalledWithoutNew))
  end.

(** The same test on an error descriptor, whose function returns the error
    value itself. *)
Definition typeofFunction_error (getter : ErrorFunction)
  : (HttpClientResponse -> Exit Any) + Schema :=
  match getter with
  | ErrorFn f => inl (fun r => Success (f r))
  | ErrorSchema _ => inl (fun _ => Failure (Die ClassCalledWithoutNew))
  end.

Section make.
Variable spec : Route.

(** [const getHeaders = (params) => Effect.gen(...)] *)
Definition getHeaders (params : option Params) : Effect (option HeadersFunction) :=
  match headers spec with
  | None => mret None
  | Some h =>
      match h, params with
      | HeadersFn f, Some p =>
          match p_headers p with
          | Some a =>
              hs ← call (CallHeaders a) (ofUser (f a));
              mret (Some (HeadersValue hs))
          | None => mret (Some h)
          end
      | _, _ => mret (Some h)
      end
  end.

(** [const parseResponse = (schema, response) => Effect.gen(...)] *)
Definition parseResponse (schema : Schema) (r : HttpClientResponse) : Effect Any :=
  j ← response_json r;
  Schema_decodeUnknown (Schema_parseJson schema) j.

(** [const getResponse = (getter, response) => Effect.gen(function* () {
      if (!getter) return response;
      if (typeof getter === "function") return yield* getter(response);
      return yield* parseResponse(getter, response);
    })] *)
Definition getResponse (getter : option OutputFunction) (r : HttpClientResponse)
  : Effect Output :=
  _ ← call (GetResponse r) (Success ());
  match getter with
  | None => mret (Raw r)
  | Some getter =>
      match typeofFunction_output getter with
      | inl getter => call (CallResponseFn r) (getter r)
      | inr schema =>
          v ← parseResponse schema r;
          mret (Value v)
      end
  end.

(** [const getError = (getter, response) => Effect.gen(function* () {
      if (typeof getter === "function")
        return yield* Effect.fail(getter(response));
      const error = yield* parseResponse(getter, response);
      yield* Effect.fail(error);
    })].  The generator has no [return] after its last [yield*]; it would
    return [undefined]. *)
Definition getError (getter : ErrorFunction) (r : HttpClientResponse) : Effect () :=
  _ ← call (GetError r) (Success ());
  match typeofFunction_error getter with
  | inl getter =>
      e ← call (CallErrorFn r) (getter r);
      fail (Fail e)
  | inr schema =>
      e ← parseResponse schema r;
      _ ← (fail (Fail e) : Effect ());
      mret ()
  end.

(** [const url = typeof spec.url === "function" && params && "url" in params
      ? spec.url(params.url) : (spec.url as string)] *)
Definition resolveUrl (params : option Params) : Effect UrlFunction :=
  match url spec, params with
  | UrlFn f, Some p =>
      match p_url p with
      | Some a => call (CallUrl a) (Success (UrlString (f a)))
      | None => mret (url spec)
      end
  | _, _ => mret (url spec)
  end.

(** [const bodyJson = spec.body && params && "body" in params
      ? yield* Schema.encode(spec.body)(params.body).pipe(HttpBody.json)
      : undefined].
    [Schema.encode(spec.body)(params.body)] is an Effect, and
    [.pipe(HttpBody.json)] on it is [HttpBody.json] applied to that Effect
    object, of type [Effect<Uint8Array, HttpBodyError>]; [yield*] runs the
    latter. *)
Definition resolveBody (params : option Params) : Effect (option HttpBody) :=
  match body spec, params with
  | Some schema, Some p =>
      match p_body p with
      | Some a =>
          b ← HttpBody_json_effect (JsEffect (Schema_encode schema a));
          mret (Some b)
      | None => mret None
      end
  | _, _ => mret None
  end.

(** [HttpClientRequest.make(spec.method)(url).pipe(
      (req) => (headers ? setHeaders(req, headers) : req),
      (req) => (bodyJson ? setBody(req, bodyJson) : req))] *)
Definition assemble (u : UrlFunction) (hs : option HeadersFunction)
    (bodyJson : option HttpBody) : Effect HttpClientRequest :=
  req ← (([], HttpClientRequest_make (method spec) u) : Effect HttpClientRequest);
  let req := match hs with Some h => setHeaders req h | None => req end in
  mret (match bodyJson with Some b => setBody req b | None => req end).

(** [!spec.filterStatusOk && spec.error &&
     (response.status < 200 || response.status >= 300)]: the error
    descriptor to resolve with, if the condition holds. *)
Definition failed (r : HttpClientResponse) : option ErrorFunction :=
  if falsy (filterStatusOk spec) then
    match error spec with
    | Some getter =>
        if (status r <? 200) || (status r >=? 300) then Some getter else None
    | None => None
    end
  else None.

(** The callable [make(spec)] returns, run with the [HttpClient] service of
    its context. *)
Definition make (params : option Params) (httpClient : HttpClient) : Effect Output :=
  u ← resolveUrl params;
  hs ← getHeaders params;
  bodyJson ← resolveBody params;
  request ← assemble u hs bodyJson;
  let client :=
    if falsy (filterStatusOk spec) then httpClient
    else HttpClient_filterStatusOk httpClient in
  r ← execute client request;
  _ ← match failed r with
      | Some getter => getError getter r
      | None => mret ()
      end;
  getResponse (response spec) r.

(** The generator of [make] up to the assembled request, and up to the
    response; [make_phases] below shows that [make] is these followed by the
    classification. *)
Definition prepare (params : option Params) : Effect HttpClientRequest :=
  u ← resolveUrl params;
  hs ← getHeaders params;
  bodyJson ← resolveBody params;
  assemble u hs bodyJson.

Definition selectClient (httpClient : HttpClient) : HttpClient :=
  if falsy (filterStatusOk spec) then httpClient
  else HttpClient_filterStatusOk httpClient.

Definition requestPhase (params : option Params) (httpClient : HttpClient)
  : Effect HttpClientResponse :=
  request ← prepare params;
  execute (selectClient httpClient) request.

Definition resolve (r : HttpClientResponse) : Effect Output :=
  _ ← match failed r with
      | Some getter => getError getter r
      | None => mret ()
      end;
  getResponse (response spec) r.

End make.

(** [{ ...spec, error: e }] on a route *)
Definition withError (e : option ErrorFunction) (spec : Route) : Route :=
  {| url := url spec; method := method spec; headers := headers spec;
     body := body spec; response := response spec; error := e;
     filterStatusOk := filterStatusOk spec |}.

(** ["k" in params] is false: no bag, or a bag without the key. *)
Definition lacks (key : Params -> option Any) (params : option Params) : bool :=
  match params with
  | None => true
  | Some p => match key p with None => true | Some _ => false end
  end.

(** [response.status < 200 || response.status >= 300] *)
Definition badStatus (r : HttpClientResponse) : Prop :=
  status r < 200 \/ status r >= 300.

(** [{ ...spec, response: o }] on a route *)
Definition withResponse (o : option OutputFunction) (spec : Route) : Route :=
  {| url := url spec; method := method spec; headers := headers spec;
     body := body spec; response := o; error := error spec;
     filterStatusOk := filterStatusOk spec |}.

(** The requests handed to the transport, in order. *)
Definition executed (evs : list Event) : list HttpClientRequest :=
  omap (fun ev => match ev with Execute req => Some req | _ => None end) evs.


(** [{}] as a parameter bag *)
Definition emptyParams : Params :=
  {| p_url := None; p_headers := None; p_body := None |}.

(** [params.k] when ["k" in params] *)
Definition param (key : Params -> option Any) (params : option Params) : option Any :=
  match params with
  | Some p => key p
  | None => None
  end.

(** *** Per-method constructors *)

(** The object literal a constructor takes:
    [Omit<Route<M, U, H, I, O, E>, "method" | "_tag">]. *)
Record MakerSpec : Type := {
  s_url : UrlFunction;
  s_headers : Field HeadersFunction;
  s_body : Field Schema;
  s_response : Field OutputFunction;
  s_error : Field ErrorFunction;
  s_filterStatusOk : Field bool
}.

(** [Omit<Route<"GET", U, H, never, O, E>, "method" | "body" | "_tag">] *)
Record GetMakerSpec : Type := {
  g_url : UrlFunction;
  g_headers : Field HeadersFunction;
  g_response : Field OutputFunction;
  g_error : Field ErrorFunction;
  g_filterStatusOk : Field bool
}.

Definition withoutBody (spec : GetMakerSpec) : MakerSpec :=
  {| s_url := g_url spec; s_headers := g_headers spec; s_body := Absent;
     s_response := g_response spec; s_error := g_error spec;
     s_filterStatusOk := g_filterStatusOk spec |}.

(** [new Route({ ...spec, method: m })] *)
Definition new_Route (m : HttpMethod) (spec : MakerSpec) : Route :=
  {| url := s_url spec;
     method := m;
     headers := read (s_headers spec);
     body := read (s_body spec);
     response := read (s_response spec);
     error := read (s_error spec);
     filterStatusOk := read (s_filterStatusOk spec) |}.

(** The route with the given [headers] and [error] and every other field
    read from the per-call spec. *)
Definition routeWith (m : HttpMethod) (h : option HeadersFunction)
    (e : option ErrorFunction) (spec : MakerSpec) : Route :=
  {| url := s_url spec;
     method := m;
     headers := h;
     body := read (s_body spec);
     response := read (s_response spec);
     error := e;
     filterStatusOk := read (s_filterStatusOk spec) |}.

Definition get (spec : GetMakerSpec) := make (new_Route GET (withoutBody spec)).
Definition post (spec : MakerSpec) := make (new_Route POST spec).
Definition put (spec : MakerSpec) := make (new_Route PUT spec).
Definition del (spec : MakerSpec) := make (new_Route DELETE spec).

End Compiler.

End Make.

(** ** The client: default headers and error descriptor *)
Module Client.

Section Client.
Context `{P : Make.Platform}.

(** [class Client extends Data.TaggedClass(...)<{ headers?; error? }>] *)
Record Client : Type := {
  headers : option Make.HeadersFunction;
  error : option Make.ErrorFunction
}.

(** [new Route({ headers: this.headers, error: this.error, ...spec, method: m })] *)
Definition new_Route (this : Client) (m : HttpMethod) (spec : Make.MakerSpec)
  : Make.Route :=
  {| Make.url := Make.s_url spec;
     Make.method := m;
     Make.headers := spread (headers this) (Make.s_headers spec);
     Make.body := read (Make.s_body spec);
     Make.response := read (Make.s_response spec);
     Make.error := spread (error this) (Make.s_error spec);
     Make.filterStatusOk := read (Make.s_filterStatusOk spec) |}.

Definition get (this : Client) (spec : Make.GetMakerSpec) :=
  Make.make (new_Route this GET (Make.withoutBody spec)).
Definition post (this : Client) (spec : Make.MakerSpec) :=
  Make.make (new_Route this POST spec).
Definition put (this : Client) (spec : Make.MakerSpec) :=
  Make.make (new_Route this PUT spec).
Definition del (this : Client) (spec : Make.MakerSpec) :=
  Make.make (new_Route this DELETE spec).

(** [type EffectFn<P, A, E, R> = (params: P) => Effect.Effect<A, E, R>], with
    the [HttpClient] service as the requirement [R]. *)
Definition EffectFn (Pm A : Type) : Type := Pm -> Make.HttpClient -> A.

(** [effect.pipe(Effect.provide(layer))] for a layer that holds an
    [HttpClient]: the effect runs with that service, whatever its context has. *)
Definition provide {A : Type} (layer : Make.HttpClient) (effect : Make.HttpClient -> A)
  : Make.HttpClient -> A :=
  fun _ => effect layer.

(** [const provideFn = (fn, layer) => (params) => fn(params).pipe(Effect.provide(layer))] *)
Definition provideFn {Pm A : Type} (fn : EffectFn Pm A) (layer : Make.HttpClient)
  : EffectFn Pm A :=
  fun params => provide layer (fn params).

(** [const provideFactory = (factory, layer) => (config) => provideFn(factory(config), layer)] *)
Definition provideFactory {C Pm A : Type} (factory : C -> EffectFn Pm A)
    (layer : Make.HttpClient) : C -> EffectFn Pm A :=
  fun config => provideFn (factory config) layer.

(** The object [make] returns: [{ get, post, put, del }]. *)
Record Methods : Type := {
  m_get : Make.GetMakerSpec -> EffectFn (option Make.Params) (Make.Effect Make.Output);
  m_post : Make.MakerSpec -> EffectFn (option Make.Params) (Make.Effect Make.Output);
  m_put : Make.MakerSpec -> EffectFn (option Make.Params) (Make.Effect Make.Output);
  m_del : Make.MakerSpec -> EffectFn (option Make.Params) (Make.Effect Make.Output)
}.

(** [export const make = (config?) => Effect.gen(function* () { ... })]: run
    with the [HttpClient] of its context, it builds a client from
    [config?.headers] and [config?.error] and returns its four methods with
    that [HttpClient] provided. *)
Definition make (config : option Client) (httpClient : Make.HttpClient) : Methods :=
  let layer := httpClient in
  let client := {| headers := config ≫= headers; error := config ≫= error |} in
  {| m_get := provideFactory (get client) layer;
     m_post := provideFactory (post client) layer;
     m_put := provideFactory (put client) layer;
     m_del := provideFactory (del client) layer |}.


End Client.

End Client.

(** ** The request rewriter of [layer] *)
Module Layer.

Section Layer.
Context `{V : Values}.

(** [class Config extends Context.Tag(...)<Config, { url: string; accessToken: string | undefined }>] *)
Record Config : Type := {
  url : string;
  accessToken : option string
}.

(** A request of the platform, as the transport sees it. *)
Record HttpClientRequest : Type := {
  req_method : HttpMethod;
  req_url : string;
  req_headers : Headers;
  req_body : option HttpBody
}.

(** [s.startsWith("/")] *)
Definition startsWithSlash (s : string) : bool := String.prefix "/" s.

(** [HttpClientRequest.setUrl(url)] for a string *)
Definition setUrl (u : string) (req : HttpClientRequest) : HttpClientRequest :=
  {| req_method := req_method req; req_url := u;
     req_headers := req_headers req; req_body := req_body req |}.

(** [HttpClientRequest.setHeader(key, value)]; the platform stores header
    names in lower case, one value per name. *)
Definition setHeader (k v : string) (req : HttpClientRequest) : HttpClientRequest :=
  {| req_method := req_method req; req_url := req_url req;
     req_headers := <[k := v]> (req_headers req); req_body := req_body req |}.

(** [HttpClientRequest.bearerToken(token)] *)
Definition bearerToken (token : string) : HttpClientRequest -> HttpClientRequest :=
  setHeader "authorization" ("Bearer " +:+ token).

(** [(req) => req.url.startsWith("/")
       ? req.pipe(HttpClientRequest.setUrl(config.url + req.url)) : req] *)
Definition prependBaseUrl (config : Config) (req : HttpClientRequest) : HttpClientRequest :=
  if startsWithSlash (req_url req)
  then setUrl (url config +:+ req_url req) req
  else req.

(** [(req) => config.accessToken
       ? req.pipe(HttpClientRequest.bearerToken(config.accessToken)) : req];
    the test is JavaScript truthiness: [undefined] and the empty string fail it. *)
Definition attachBearerToken (config : Config) (req : HttpClientRequest) : HttpClientRequest :=
  match accessToken config with
  | Some token => if String.eqb token EmptyString then req else bearerToken token req
  | None => req
  end.

(** [HttpClient.mapRequestInput(f)]: [f] runs on the request before the
    client it wraps sees it. *)
Definition mapRequestInput {R : Type} (f : HttpClientRequest -> HttpClientRequest)
    (client : HttpClientRequest -> R) : HttpClientRequest -> R :=
  fun req => client (f req).

(** The client [layer] provides:
    [client.pipe(mapRequestInput(prependBaseUrl), mapRequestInput(attachBearerToken))] *)
Definition layer {R : Type} (config : Config) (client : HttpClientRequest -> R)
  : HttpClientRequest -> R :=
  mapRequestInput (attachBearerToken config)
    (mapRequestInput (prependBaseUrl config) client).

(** The request the wrapped client receives. *)
Definition rewrite (config : Config) (req : HttpClientRequest) : HttpClientRequest :=
  prependBaseUrl config (attachBearerToken config req).

End Layer.

End Layer.

(** ** A small concrete platform, to run the definitions on *)
Module Demo.

(** The values are strings.  Two schemas over them, and [Schema.parseJson]
    of a schema, which takes the JSON text of a value. *)
Inductive DemoSchema : Type :=
| NonEmptyString
| AnyString
| ParseJson (s : DemoSchema).

Definition values : Values :=
  {| Any := string; Schema := DemoSchema; HttpBody := string |}.

(** [JSON.parse] on the text of a string without escapes: the characters
    between the two quotes.  Other texts give no string. *)
Fixpoint jsonStringTail (t : string) : option string :=
  match t with
  | EmptyString => None
  | String c rest =>
      if Ascii.eqb c (Ascii.ascii_of_nat 34) then
        match rest with EmptyString => Some EmptyString | _ => None end
      else if Ascii.eqb c (Ascii.ascii_of_nat 92) then None
      else
        match jsonStringTail rest with
        | Some r => Some (String c r)
        | None => None
        end
  end.

Definition jsonString (a : string) : option string :=
  match a with
  | String c rest => if Ascii.eqb c (Ascii.ascii_of_nat 34) then jsonStringTail rest else None
  | EmptyString => None
  end.

Fixpoint validate (s : DemoSchema) (a : string) : string + string :=
  match s with
  | NonEmptyString =>
      if String.eqb a EmptyString then inl "Expected a non empty string" else inr a
  | AnyString => inr a
  | ParseJson s' =>
      match jsonString a with
      | Some v => validate s' v
      | None => inl "Expected the JSON text of a string"
      end
  end.

(** [JSON.stringify] gives a JSON text for an Effect object as for any other
    object; it does not run it. *)
Definition stringify (u : @Make.Unknown values) : string + string :=
  match u with
  | Make.JsValue v => inr v
  | Make.JsEffect _ => inr "{_id:Effect}"
  end.

(** A JSON body has the content type [application/json] and the length of
    its text. *)
Definition platform : @Make.Platform values :=
  @Make.Build_Platform values ParseJson validate validate stringify
    (fun _ => "application/json") String.length.

(** A transport that answers every request with [r]. *)
Definition answering (r : @Make.HttpClientResponse values) : @Make.HttpClient values :=
  fun _ => Make.Success r.

Definition notFound : @Make.HttpClientResponse values :=
  @Make.Build_HttpClientResponse values 404 (Make.Success (V := values) "missing").

Definition okTodo : @Make.HttpClientResponse values :=
  @Make.Build_HttpClientResponse values 200 (Make.Success (V := values) "todo").

(** [new Route({ method: m, url: u })] with the optional fields given. *)
Definition route (m : HttpMethod) (u : @Make.UrlFunction values)
    (h : option (@Make.HeadersFunction values)) (b : option DemoSchema)
    (o : option (@Make.OutputFunction values)) (e : option (@Make.ErrorFunction values))
    (f : option bool) : @Make.Route values :=
  @Make.Build_Route values u m h b o e f.

Definition noParams : option (@Make.Params values) := None.

Definition bodyParams (b : string) : option (@Make.Params values) :=
  Some (@Make.Build_Params values None None (Some b)).

Definition todoUrl : @Make.UrlFunction values :=
  @Make.UrlFn values (fun id => "/todos/" +:+ id).

Definition versionHeaders : @Make.HeadersFunction values :=
  @Make.HeadersFn values (fun v => inr {[ "x-api-version" := v ]}).

Definition apiError : @Make.ErrorFunction values :=
  @Make.ErrorSchema values AnyString.

Definition requestFailed : @Make.ErrorFunction values :=
  @Make.ErrorFn values (fun r => "Request failed").

(** [{ url: { id } }] *)
Definition urlParams (id : string) : option (@Make.Params values) :=
  Some (@Make.Build_Params values (Some id) None None).

(** [make(new Route({ method: "GET", url: "/todos/1" }))] *)
Definition getTodo : @Make.Route values :=
  route GET (Make.UrlString "/todos/1") None None None None None.

(** [... error: (res) => "Request failed"] *)
Definition getTodoOrFail : @Make.Route values :=
  route GET (Make.UrlString "/todos/1") None None None (Some requestFailed) None.

(** [... error: (res) => "Request failed", filterStatusOk: true] *)
Definition getTodoFiltered : @Make.Route values :=
  route GET (Make.UrlString "/todos/1") None None None (Some requestFailed) (Some true).

(** [new Route({ method: "POST", url: "/todos", body: Schema.NonEmptyString })] *)
Definition createTodo : @Make.Route values :=
  route POST (Make.UrlString "/todos") None (Some NonEmptyString) None None None.

(** [new Route({ method: "GET", url: (id) => "/todos/" + id, headers: (v) => ... })] *)
Definition getTodoById : @Make.Route values :=
  route GET todoUrl (Some versionHeaders) None None None None.

(** The request [make] assembles for [m] and [u], with headers and body. *)
Definition request (m : HttpMethod) (u : @Make.UrlFunction values)
    (h : option (@Make.HeadersFunction values)) (b : option string)
  : @Make.HttpClientRequest values :=
  let req := @Make.Build_HttpClientRequest values m u h None ∅ in
  match b with
  | Some b => Make.setBody (P := platform) req b
  | None => req
  end.

(** [new Route({ method: "GET", url: "/todos/1", headers: (v) => ... })] *)
Definition getWithVersion : @Make.Route values :=
  route GET (Make.UrlString "/todos/1") (Some versionHeaders) None None None None.

(** [... error: ApiError], a schema *)
Definition getTodoOrApiError : @Make.Route values :=
  route GET (Make.UrlString "/todos/1") None None None (Some apiError) None.

(** A per-call spec of a client method: [{ url: "/todos", headers, error }]. *)
Definition perCall (h : Field (@Make.HeadersFunction values))
    (e : Field (@Make.ErrorFunction values)) : @Make.MakerSpec values :=
  @Make.Build_MakerSpec values (Make.UrlString "/todos") h Absent Absent e Absent.

Definition apiClient : @Client.Client values :=
  @Client.Build_Client values (Some versionHeaders) (Some requestFailed).

(** Configurations and requests of the rewriter. *)
Definition withToken : Layer.Config :=
  {| Layer.url := "https://api.example.com"; Layer.accessToken := Some "ey" |}.

Definition emptyToken : Layer.Config :=
  {| Layer.url := "https://api.example.com"; Layer.accessToken := Some EmptyString |}.

Definition platformRequest (u : string) (h : Headers) : @Layer.HttpClientRequest values :=
  @Layer.Build_HttpClientRequest values GET u h None.

(** More routes, parameter bags and transports. *)
Definition noSession : @Make.HeadersFunction values :=
  @Make.HeadersFn values (fun _ => inl "no session").

Definition headersParams (v : string) : option (@Make.Params values) :=
  Some (@Make.Build_Params values None (Some v) None).

(** [{ url: id, headers: v, body: b }] *)
Definition allParams (id v b : string) : option (@Make.Params values) :=
  Some (@Make.Build_Params values (Some id) (Some v) (Some b)).

Definition getWithSession : @Make.Route values :=
  route GET (Make.UrlString "/todos/1") (Some noSession) None None None None.

Definition getTodoDecoded : @Make.Route values :=
  route GET (Make.UrlString "/todos/1") None None
    (Some (@Make.OutputSchema values NonEmptyString)) (Some requestFailed) None.

Definition offline : @Make.HttpClient values :=
  fun _ => Make.Failure (V := values) (Make.RequestError (V := values) "offline").

(** A 200 response whose JSON body is the empty string. *)
Definition okEmptyString : @Make.HttpClientResponse values :=
  @Make.Build_HttpClientResponse values 200 (Make.Success (V := values) EmptyString).

(** A platform whose [HttpBody.json] cannot serialise an Effect object. *)
Definition strictStringify (u : @Make.Unknown values) : string + string :=
  match u with
  | Make.JsValue v => inr v
  | Make.JsEffect _ => inl "cannot serialise"
  end.

Definition strictPlatform : @Make.Platform values :=
  @Make.Build_Platform values ParseJson validate validate strictStringify
    (fun _ => "application/json") String.length.

(** [{ url: "/todos/1", headers, error }] for [get] *)
Definition getSpec (h : Field (@Make.HeadersFunction values))
    (e : Field (@Make.ErrorFunction values)) : @Make.GetMakerSpec values :=
  @Make.Build_GetMakerSpec values (Make.UrlString "/todos/1") h Absent e Absent.

Definition relativeBase : Layer.Config :=
  {| Layer.url := "/api"; Layer.accessToken := None |}.

End Demo.

(** * Properties *)

(** ** Sequencing *)
Section Sequencing.
Context `{V : Values}.

Lemma andThen_succeed {A B : Type} (a : A) (k : A -> Make.Effect B) :
  Make.andThen (Make.succeed a) k = k a.
Proof. unfold Make.andThen, Make.succeed. destruct (k a) as [l r]. reflexivity. Qed.

Lemma andThen_assoc {A B C : Type} (m : Make.Effect A)
    (f : A -> Make.Effect B) (g : B -> Make.Effect C) :
  Make.andThen (Make.andThen m f) g = Make.andThen m (fun a => Make.andThen (f a) g).
Proof.
  destruct m as [l [a|c]]; simpl; [|reflexivity].
  destruct (f a) as [l1 [b|c]]; simpl; [|reflexivity].
  destruct (g b) as [l2 r]. by rewrite app_assoc.
Qed.

Lemma andThen_success {A B : Type} (l : list Make.Event) (a : A) (k : A -> Make.Effect B) :
  Make.andThen (l, Make.Success a) k = (l ++ Make.events (k a), Make.exit (k a)).
Proof. simpl. by destruct (k a). Qed.

Lemma andThen_failure {A B : Type} (l : list Make.Event) (c : Make.Cause)
    (k : A -> Make.Effect B) :
  Make.andThen (l, Make.Failure c) k = (l, Make.Failure c).
Proof. reflexivity. Qed.

Lemma andThen_ext {A B : Type} (m : Make.Effect A) (f g : A -> Make.Effect B) :
  (forall a, f a = g a) -> Make.andThen m f = Make.andThen m g.
Proof. intros E. destruct m as [l [a|c]]; simpl; [by rewrite E | done]. Qed.

End Sequencing.

Ltac unfold_effect :=
  unfold mbind, mret, Make.Effect_bind, Make.Effect_ret in *.

Section MakeFacts.
Context `{P : Make.Platform}.
Implicit Types (spec : Make.Route) (params : option Make.Params)
  (httpClient : Make.HttpClient) (r : Make.HttpClientResponse).

(** [make] is the request phase followed by the classification. *)
Lemma make_phases spec params httpClient :
  Make.make spec params httpClient =
  Make.andThen (Make.requestPhase spec params httpClient) (Make.resolve spec).
Proof.
  unfold Make.make, Make.requestPhase, Make.prepare, Make.resolve, Make.selectClient.
  unfold_effect.
  rewrite !andThen_assoc. apply andThen_ext; intros u.
  rewrite !andThen_assoc. apply andThen_ext; intros hs.
  rewrite !andThen_assoc. apply andThen_ext; intros b.
  reflexivity.
Qed.

End MakeFacts.

Section Steps.
Context `{P : Make.Platform}.
Implicit Types (spec : Make.Route) (params : option Make.Params)
  (httpClient : Make.HttpClient) (l : list Make.Event).

Lemma lacks_param (key : Make.Params -> option Any) params :
  Make.lacks key params = false <-> is_Some (Make.param key params).
Proof.
  unfold Make.lacks, Make.param. destruct params as [p|]; simpl.
  - destruct (key p); split; intros H; eauto; try done; by destruct H.
  - split; [done|]. by intros [? ?].
Qed.

(** The URL step, by cases. *)
Lemma resolveUrl_cases spec params :
  Make.resolveUrl spec params =
  match Make.url spec, Make.param Make.p_url params with
  | Make.UrlFn f, Some a => ([Make.CallUrl a], Make.Success (Make.UrlString (f a)))
  | u, _ => ([], Make.Success u)
  end.
Proof.
  unfold Make.resolveUrl, Make.param, Make.call. unfold_effect. unfold Make.succeed.
  destruct (Make.url spec), params as [p|]; simpl; try reflexivity;
    by destruct (Make.p_url p).
Qed.

(** The headers step, by cases. *)
Lemma getHeaders_cases spec params :
  Make.getHeaders spec params =
  match Make.headers spec with
  | None => ([], Make.Success None)
  | Some (Make.HeadersValue h) => ([], Make.Success (Some (Make.HeadersValue h)))
  | Some (Make.HeadersFn f) =>
      match Make.param Make.p_headers params with
      | Some a =>
          ([Make.CallHeaders a],
           match f a with
           | inl e => Make.Failure (Make.Fail e)
           | inr hs => Make.Success (Some (Make.HeadersValue hs))
           end)
      | None => ([], Make.Success (Some (Make.HeadersFn f)))
      end
  end.
Proof.
  unfold Make.getHeaders, Make.param, Make.call, Make.ofUser. unfold_effect.
  unfold Make.succeed, Make.andThen.
  destruct (Make.headers spec) as [[h|f]|]; try reflexivity;
    destruct params as [p|]; simpl; try reflexivity;
    destruct (Make.p_headers p) as [a|]; try reflexivity; by destruct (f a).
Qed.

(** The body step, by cases. *)
Lemma resolveBody_cases spec params :
  Make.resolveBody spec params =
  match Make.body spec, Make.param Make.p_body params with
  | Some schema, Some a =>
      ([], match Make.HttpBody_json (Make.JsEffect (Make.Schema_encode schema a)) with
           | inl e => Make.Failure (Make.HttpBodyError e)
           | inr b => Make.Success (Some b)
           end)
  | _, _ => ([], Make.Success None)
  end.
Proof.
  unfold Make.resolveBody, Make.param, Make.HttpBody_json_effect. unfold_effect.
  unfold Make.succeed, Make.andThen.
  destruct (Make.body spec) as [schema|]; [|reflexivity].
  destruct params as [p|]; simpl; [|reflexivity].
  destruct (Make.p_body p) as [a|]; try reflexivity.
  try by destruct (Make.HttpBody_json _).
Qed.

(** The request [make] builds from a URL, the resolved headers and body. *)
Lemma assemble_cases spec u hs b :
  Make.assemble spec u hs b =
  ([], match Make.HttpClientRequest_make (Make.method spec) u with
       | Make.Success req =>
           let req := match hs with Some h => Make.setHeaders req h | None => req end in
           Make.Success (match b with Some b => Make.setBody req b | None => req end)
       | Make.Failure c => Make.Failure c
       end).
Proof.
  unfold Make.assemble. unfold_effect. unfold Make.succeed, Make.andThen.
  by destruct (Make.HttpClientRequest_make (Make.method spec) u).
Qed.

(** The headers step calls nothing but the headers function, and the body
    step calls nothing. *)
Lemma getHeaders_events spec params :
  Forall (fun ev => exists a, ev = Make.CallHeaders a)
         (Make.events (Make.getHeaders spec params)).
Proof.
  rewrite getHeaders_cases.
  destruct (Make.headers spec) as [[h|f]|]; simpl; try constructor.
  destruct (Make.param Make.p_headers params); simpl; repeat constructor; eauto.
Qed.

Lemma resolveUrl_events spec params :
  Forall (fun ev => exists a, ev = Make.CallUrl a)
         (Make.events (Make.resolveUrl spec params)).
Proof.
  rewrite resolveUrl_cases.
  destruct (Make.url spec), (Make.param Make.p_url params); simpl;
    repeat constructor; eauto.
Qed.

Lemma resolveBody_events spec params :
  Make.events (Make.resolveBody spec params) = [].
Proof.
  rewrite resolveBody_cases.
  by destruct (Make.body spec), (Make.param Make.p_body params).
Qed.

(** The events of assembling the request are those of the URL step followed
    by those of the headers step. *)
Lemma prepare_events spec params :
  Make.events (Make.prepare spec params) =
  Make.events (Make.resolveUrl spec params) ++
  Make.events (Make.getHeaders spec params).
Proof.
  unfold Make.prepare. unfold_effect.
  pose proof (resolveUrl_cases spec params) as U.
  destruct (Make.resolveUrl spec params) as [lu [u|c]].
  2:{ exfalso. by destruct (Make.url spec), (Make.param Make.p_url params). }
  clear U. rewrite andThen_success. simpl. f_equal.
  destruct (Make.getHeaders spec params) as [lh [hs|c]]; [|done].
  rewrite andThen_success. simpl.
  pose proof (resolveBody_events spec params) as B.
  destruct (Make.resolveBody spec params) as [lb [b|c]]; simpl in B; subst lb.
  - rewrite andThen_success, assemble_cases. simpl. by rewrite app_nil_r.
  - simpl. by rewrite app_nil_r.
Qed.

(** A request that was assembled, by the steps that gave it. *)
Lemma prepare_inv spec params l req :
  Make.prepare spec params = (l, Make.Success req) ->
  exists s hs b,
    Make.exit (Make.resolveUrl spec params) = Make.Success (Make.UrlString s) /\
    Make.exit (Make.getHeaders spec params) = Make.Success hs /\
    Make.exit (Make.resolveBody spec params) = Make.Success b /\
    req =
      let base := {| Make.req_method := Make.method spec;
                     Make.req_url := Make.UrlString s;
                     Make.req_headers := None; Make.req_body := None;
                     Make.req_bodyHeaders := ∅ |} in
      let withHeaders := match hs with
                         | Some h => Make.setHeaders base h
                         | None => base
                         end in
      match b with
      | Some b => Make.setBody withHeaders b
      | None => withHeaders
      end.
Proof.
  unfold Make.prepare. unfold_effect.
  destruct (Make.resolveUrl spec params) as [lu [u|c]]; [|done].
  rewrite andThen_success.
  destruct (Make.getHeaders spec params) as [lh [hs|c]]; [|done].
  rewrite andThen_success.
  destruct (Make.resolveBody spec params) as [lb [b|c]]; [|done].
  rewrite andThen_success, assemble_cases. simpl.
  destruct u as [s|f]; simpl; [|done].
  intros [= _ <-]. by exists s, hs, b.
Qed.

(** Why assembling the request can fail. *)
Lemma prepare_failure spec params l c :
  Make.prepare spec params = (l, Make.Failure c) ->
  (exists e, c = Make.Fail e) \/ (exists e, c = Make.HttpBodyError e) \/
  c = Make.Die Make.InvalidUrl.
Proof.
  unfold Make.prepare. unfold_effect.
  pose proof (resolveUrl_cases spec params) as U.
  destruct (Make.resolveUrl spec params) as [lu [u|c0]].
  2:{ exfalso. by destruct (Make.url spec), (Make.param Make.p_url params). }
  clear U. rewrite andThen_success.
  pose proof (getHeaders_cases spec params) as H.
  destruct (Make.getHeaders spec params) as [lh [hs|c0]].
  2:{ simpl. intros [= _ <-]. left.
      destruct (Make.headers spec) as [[h|f]|]; try done.
      destruct (Make.param Make.p_headers params) as [a|]; [|done].
      destruct (f a); [|done]. injection H as _ ->. eauto. }
  clear H. rewrite andThen_success.
  pose proof (resolveBody_cases spec params) as B.
  destruct (Make.resolveBody spec params) as [lb [b|c0]].
  2:{ simpl. intros [= _ <-]. right. left.
      destruct (Make.body spec), (Make.param Make.p_body params); try done.
      destruct (Make.HttpBody_json _); [|done]. injection B as _ ->. eauto. }
  clear B. rewrite andThen_success, assemble_cases. simpl.
  destruct u; simpl; [done|]. intros [= _ <-]. by right; right.
Qed.

(** Assembling the request calls the URL and headers functions only. *)
Lemma prepare_calls spec params :
  Forall (fun ev => (exists a, ev = Make.CallUrl a) \/ (exists a, ev = Make.CallHeaders a))
         (Make.events (Make.prepare spec params)).
Proof.
  rewrite prepare_events. apply Forall_app. split.
  - eapply Forall_impl; [apply resolveUrl_events|]. simpl. eauto.
  - eapply Forall_impl; [apply getHeaders_events|]. simpl. eauto.
Qed.

Lemma prepare_request_events spec params :
  Forall (fun ev => Make.requestEvent ev = true)
         (Make.events (Make.prepare spec params)).
Proof.
  eapply Forall_impl; [apply prepare_calls|]. by intros ev [[a ->]|[a ->]].
Qed.

End Steps.

Section MakeTheorems.
Context `{P : Make.Platform}.
Implicit Types (spec : Make.Route) (params : option Make.Params)
  (httpClient : Make.HttpClient) (r : Make.HttpClientResponse)
  (l : list Make.Event).

Lemma badStatus_test r :
  (Make.status r <? 200) || (Make.status r >=? 300) = true <-> Make.badStatus r.
Proof.
  unfold Make.badStatus. rewrite orb_true_iff, Z.ltb_lt, Z.geb_leb, Z.leb_le. lia.
Qed.

(** The condition under which [make] calls [getError]. *)
Lemma failed_Some spec r getter :
  Make.failed spec r = Some getter <->
  falsy (Make.filterStatusOk spec) = true /\ Make.error spec = Some getter /\
  Make.badStatus r.
Proof.
  unfold Make.failed. rewrite <- badStatus_test.
  destruct (falsy _), (Make.error spec) as [g|],
    ((Make.status r <? 200) || (Make.status r >=? 300));
    intuition congruence.
Qed.

Lemma failed_None spec r :
  Make.failed spec r = None <->
  ~ (falsy (Make.filterStatusOk spec) = true /\ is_Some (Make.error spec) /\
     Make.badStatus r).
Proof.
  unfold Make.failed. rewrite <- badStatus_test.
  destruct (falsy _), (Make.error spec) as [g|],
    ((Make.status r <? 200) || (Make.status r >=? 300));
    split; try done; try (intros H; exfalso; apply H; eauto);
    intros _ (? & [? ?] & ?); done.
Qed.

(** The request phase makes no call into the resolvers. *)
Lemma requestPhase_events spec params httpClient :
  Forall (fun ev => Make.requestEvent ev = true)
         (Make.events (Make.requestPhase spec params httpClient)).
Proof.
  unfold Make.requestPhase. unfold_effect.
  pose proof (prepare_request_events spec params) as Fp.
  destruct (Make.prepare spec params) as [l [req|c]]; simpl in *; [|done].
  apply Forall_app. split; [done|]. by repeat constructor.
Qed.

Lemma requestPhase_not_resolver spec params httpClient l r ev :
  Make.requestPhase spec params httpClient = (l, Make.Success r) ->
  Make.requestEvent ev = false -> ~ In ev l.
Proof.
  intros E Hev Hin.
  pose proof (requestPhase_events spec params httpClient) as F.
  rewrite E in F. simpl in F. rewrite Forall_forall in F.
  apply list_elem_of_In in Hin. apply F in Hin. congruence.
Qed.

(** [getError] never succeeds. *)
Lemma getError_fails (getter : Make.ErrorFunction) r :
  exists c, Make.exit (Make.getError getter r) = Make.Failure c.
Proof.
  unfold Make.getError, Make.typeofFunction_error, Make.parseResponse,
    Make.response_json, Make.Schema_decodeUnknown, Make.call, Make.fail.
  unfold_effect. unfold Make.andThen, Make.succeed.
  destruct getter as [s|f]; simpl; eauto.
Qed.

End MakeTheorems.

Section Classification.
Context `{P : Make.Platform}.
Implicit Types (spec : Make.Route) (params : option Make.Params)
  (httpClient : Make.HttpClient) (r : Make.HttpClientResponse)
  (l : list Make.Event).

(** [getResponse] starts with its own event and never reports [getError]. *)
Lemma getResponse_events (getter : option Make.OutputFunction) r :
  In (Make.GetResponse r) (Make.events (Make.getResponse getter r)) /\
  forall r', ~ In (Make.GetError r') (Make.events (Make.getResponse getter r)) /\
             ~ In (Make.CallErrorFn r') (Make.events (Make.getResponse getter r)).
Proof.
  unfold Make.getResponse, Make.typeofFunction_output, Make.parseResponse,
    Make.response_json, Make.Schema_decodeUnknown, Make.call, Make.ofUser.
  unfold_effect. unfold Make.andThen, Make.succeed.
  repeat case_match; simplify_eq/=; (split; [tauto | intros r'; split; intros H]);
    repeat (destruct H as [H|H]; try discriminate H); done.
Qed.

(** [getError] starts with its own event and never reports [getResponse]. *)
Lemma getError_events (getter : Make.ErrorFunction) r :
  In (Make.GetError r) (Make.events (Make.getError getter r)) /\
  forall r', ~ In (Make.GetResponse r') (Make.events (Make.getError getter r)).
Proof.
  unfold Make.getError, Make.typeofFunction_error, Make.parseResponse,
    Make.response_json, Make.Schema_decodeUnknown, Make.call, Make.fail.
  unfold_effect. unfold Make.andThen, Make.succeed.
  repeat case_match; simplify_eq/=; (split; [tauto | intros r' H]);
    repeat (destruct H as [H|H]; try discriminate H); done.
Qed.

(** What [make] does once the response is there. *)
Lemma make_resolved spec params httpClient l r :
  Make.requestPhase spec params httpClient = (l, Make.Success r) ->
  match Make.failed spec r with
  | Some getter =>
      exists c, Make.exit (Make.getError getter r) = Make.Failure c /\
        Make.make spec params httpClient =
        (l ++ Make.events (Make.getError getter r), Make.Failure c)
  | None =>
      Make.make spec params httpClient =
      (l ++ Make.events (Make.getResponse (Make.response spec) r),
       Make.exit (Make.getResponse (Make.response spec) r))
  end.
Proof.
  intros E. rewrite make_phases, E, andThen_success. unfold Make.resolve.
  destruct (Make.failed spec r) as [getter|].
  - destruct (getError_fails getter r) as [c Hc].
    exists c. split; [done|].
    unfold_effect. destruct (Make.getError getter r) as [le xe].
    simpl in Hc. subst xe. reflexivity.
  - unfold_effect. rewrite andThen_succeed. reflexivity.
Qed.

End Classification.

Section Claims_make.
Context `{P : Make.Platform}.
Implicit Types (spec : Make.Route) (params : option Make.Params)
  (httpClient : Make.HttpClient) (r : Make.HttpClientResponse)
  (l : list Make.Event).

(** C1. With [filterStatusOk] false or absent, once the transport has
    answered with [r], the route enters [getError] if and only if an error
    descriptor is present and the status is below 200 or at least 300, and
    then fails with what [getError] fails with; it enters [getResponse] if and
    only if that is not the case, and then its result is that of
    [getResponse] on [r], also for a bad status without an error
    descriptor. *)
Theorem C1_error_path_iff spec params httpClient l r :
  falsy (Make.filterStatusOk spec) = true ->
  Make.requestPhase spec params httpClient = (l, Make.Success r) ->
  (In (Make.GetError r) (Make.events (Make.make spec params httpClient)) <->
     is_Some (Make.error spec) /\ Make.badStatus r) /\
  (In (Make.GetResponse r) (Make.events (Make.make spec params httpClient)) <->
     ~ (is_Some (Make.error spec) /\ Make.badStatus r)) /\
  (forall getter, Make.error spec = Some getter -> Make.badStatus r ->
     exists c, Make.exit (Make.getError getter r) = Make.Failure c /\
       Make.make spec params httpClient =
       (l ++ Make.events (Make.getError getter r), Make.Failure c)) /\
  (~ (is_Some (Make.error spec) /\ Make.badStatus r) ->
     Make.make spec params httpClient =
     (l ++ Make.events (Make.getResponse (Make.response spec) r),
      Make.exit (Make.getResponse (Make.response spec) r))).
Proof.
  intros Hf E.
  pose proof (make_resolved spec params httpClient l r E) as M.
  pose proof (requestPhase_not_resolver spec params httpClient l r
                (Make.GetError r) E eq_refl) as NE.
  pose proof (requestPhase_not_resolver spec params httpClient l r
                (Make.GetResponse r) E eq_refl) as NR.
  destruct (Make.failed spec r) as [getter|] eqn:F.
  - apply failed_Some in F as (_ & He & Hb).
    destruct M as (c & Hc & M). rewrite M. simpl.
    destruct (getError_events getter r) as [In1 Nin1].
    split; [|split; [|split]].
    + split; [eauto|]. intros _. apply in_or_app. by right.
    + split.
      * intros H. apply in_app_or in H as [H|H]; [done|]. by apply Nin1 in H.
      * intros H. exfalso. apply H. eauto.
    + intros g Hg _. rewrite He in Hg. injection Hg as <-. eauto.
    + intros H. exfalso. apply H. eauto.
  - apply failed_None in F. rewrite M. simpl.
    destruct (getResponse_events (Make.response spec) r) as [In1 Nin1].
    assert (N : ~ (is_Some (Make.error spec) /\ Make.badStatus r)) by tauto.
    split; [|split; [|split]].
    + split; [|tauto].
      intros H. apply in_app_or in H as [H|H]; [done|]. by apply Nin1 in H.
    + split; [done|]. intros _. apply in_or_app. by right.
    + intros g Hg Hb. exfalso. apply N. rewrite Hg. eauto.
    + done.
Qed.

(** What [getError] does on a failed response: the descriptor is called with
    the response; the route fails with the value a function returns, and
    dies when the descriptor is a schema, which is a class.  The body of the
    response is not read and nothing is decoded. *)
Lemma getError_runs spec params httpClient l r getter :
  Make.requestPhase spec params httpClient = (l, Make.Success r) ->
  Make.failed spec r = Some getter ->
  Make.make spec params httpClient =
  (l ++ [Make.GetError r; Make.CallErrorFn r],
   match getter with
   | Make.ErrorFn f => Make.Failure (Make.Fail (f r))
   | Make.ErrorSchema _ => Make.Failure (Make.Die Make.ClassCalledWithoutNew)
   end).
Proof.
  intros E F.
  pose proof (make_resolved spec params httpClient l r E) as M.
  rewrite F in M. destruct M as (c & Hc & M). rewrite M.
  clear M. revert Hc.
  unfold Make.getError, Make.typeofFunction_error, Make.call, Make.fail.
  unfold_effect. unfold Make.andThen, Make.succeed.
  destruct getter as [s|f]; simpl; by intros [= <-].
Qed.

(** What [getResponse] does on a response that is not failed: without a
    descriptor the route succeeds with the response itself; otherwise the
    descriptor is called with the response, and the route ends as a function
    ends, and dies when the descriptor is a schema, which is a class.  The
    body of the response is not read and nothing is decoded. *)
Lemma getResponse_runs spec params httpClient l r :
  Make.requestPhase spec params httpClient = (l, Make.Success r) ->
  Make.failed spec r = None ->
  Make.make spec params httpClient =
  match Make.response spec with
  | None => (l ++ [Make.GetResponse r], Make.Success (Make.Raw r))
  | Some (Make.OutputFn f) =>
      (l ++ [Make.GetResponse r; Make.CallResponseFn r],
       match f r with
       | inr o => Make.Success o
       | inl e => Make.Failure (Make.Fail e)
       end)
  | Some (Make.OutputSchema _) =>
      (l ++ [Make.GetResponse r; Make.CallResponseFn r],
       Make.Failure (Make.Die Make.ClassCalledWithoutNew))
  end.
Proof.
  intros E F.
  pose proof (make_resolved spec params httpClient l r E) as M.
  rewrite F in M. rewrite M. clear M.
  unfold Make.getResponse, Make.typeofFunction_output, Make.call, Make.ofUser.
  unfold_effect. unfold Make.andThen, Make.succeed.
  destruct (Make.response spec) as [[s|f]|]; simpl; [done| |done].
  by destruct (f r).
Qed.

End Claims_make.

Section Claims_request.
Context `{P : Make.Platform}.
Implicit Types (spec : Make.Route) (params : option Make.Params)
  (httpClient : Make.HttpClient) (r : Make.HttpClientResponse)
  (l : list Make.Event).

(** The request phase, once the request is assembled. *)
Lemma requestPhase_prepared spec params httpClient l req :
  Make.prepare spec params = (l, Make.Success req) ->
  Make.requestPhase spec params httpClient =
  (l ++ [Make.Execute req], Make.selectClient spec httpClient req).
Proof.
  intros E. unfold Make.requestPhase. unfold_effect. by rewrite E.
Qed.

(** Nothing but the error descriptor itself depends on the [error] field
    before the response is classified. *)
Lemma requestPhase_withError spec params httpClient e :
  Make.requestPhase (Make.withError e spec) params httpClient =
  Make.requestPhase spec params httpClient.
Proof. reflexivity. Qed.

(** C4. With [filterStatusOk] true the error descriptor plays no part: no
    response is classified as failed, the route never enters [getError] nor
    calls an error function, replacing the error descriptor by any other (or
    none) leaves the whole run unchanged, and a response of the transport
    whose status is outside 200..299 is turned by the status filter into a
    [ResponseError] with which the route fails right after the request. *)
Theorem C4_filter_status_ok spec params httpClient :
  Make.filterStatusOk spec = Some true ->
  (forall r, Make.failed spec r = None) /\
  (forall r, ~ In (Make.GetError r) (Make.events (Make.make spec params httpClient)) /\
             ~ In (Make.CallErrorFn r) (Make.events (Make.make spec params httpClient))) /\
  (forall e, Make.make (Make.withError e spec) params httpClient =
             Make.make spec params httpClient) /\
  (forall l req r,
      Make.prepare spec params = (l, Make.Success req) ->
      httpClient req = Make.Success r ->
      ~ (200 <= Make.status r < 300) ->
      Make.make spec params httpClient =
      (l ++ [Make.Execute req], Make.Failure (Make.ResponseError Make.StatusCode))).
Proof.
  intros Hf.
  assert (F : forall r, Make.failed spec r = None).
  { intros r. unfold Make.failed. by rewrite Hf. }
  split; [done|]. split; [|split].
  - intros r0.
    destruct (Make.requestPhase spec params httpClient) as [l [r|c]] eqn:E.
    + pose proof (make_resolved spec params httpClient l r E) as M.
      rewrite F in M. rewrite M. simpl.
      destruct (getResponse_events (Make.response spec) r) as [_ N].
      destruct (N r0) as [N1 N2].
      split; intros H; apply in_app_or in H as [H|H]; try done;
        by eapply requestPhase_not_resolver in H.
    + rewrite make_phases, E, andThen_failure. simpl.
      pose proof (requestPhase_events spec params httpClient) as A.
      rewrite E in A. simpl in A. rewrite Forall_forall in A.
      split; intros H; apply list_elem_of_In, A in H; discriminate H.
  - intros e. rewrite !make_phases, requestPhase_withError.
    apply andThen_ext. intros r. unfold Make.resolve, Make.failed. simpl.
    by rewrite Hf.
  - intros l req r E Hc Hs.
    rewrite make_phases, (requestPhase_prepared _ _ _ _ _ E).
    unfold Make.selectClient, Make.HttpClient_filterStatusOk.
    rewrite Hf. simpl. rewrite Hc.
    replace ((200 <=? Make.status r) && (Make.status r <? 300)) with false; [done|].
    symmetry. apply andb_false_iff. rewrite Z.leb_gt, Z.ltb_ge. lia.
Qed.

(** A body is attached exactly when the route has a body schema and the
    parameter bag has a [body] key. *)
Lemma body_attached_iff spec params l req :
  Make.prepare spec params = (l, Make.Success req) ->
  is_Some (Make.req_body req) <->
  is_Some (Make.body spec) /\ Make.lacks Make.p_body params = false.
Proof.
  intros E. rewrite lacks_param.
  apply prepare_inv in E as (s & hs & b & _ & _ & Hb & ->).
  rewrite resolveBody_cases in Hb.
  assert (R : forall (r : Make.HttpClientRequest) b,
            Make.req_body (match b with Some b => Make.setBody r b | None => r end) =
            match b with Some b => Some b | None => Make.req_body r end).
  { intros r [b'|]; reflexivity. }
  cbv zeta. rewrite R. clear R.
  destruct (Make.body spec) as [schema|], (Make.param Make.p_body params) as [a|];
    simpl in Hb.
  - destruct (Make.HttpBody_json _); [done|]. injection Hb as <-. simpl.
    split; eauto.
  - injection Hb as <-. destruct hs; simpl; split; intros H; try by destruct H.
    all: by destruct H as [_ [? ?]].
  - injection Hb as <-. destruct hs; simpl; split; intros H; try by destruct H.
    all: by destruct H as [[? ?] _].
  - injection Hb as <-. destruct hs; simpl; split; intros H; try by destruct H.
    all: by destruct H as [[? ?] _].
Qed.

(** A parse error is never the reason a route stops before its request is
    sent: the effect [Schema.encode] returns is handed to [HttpBody.json] as
    a value and is not run. *)
Lemma ParseError_after_request spec params httpClient issue :
  Make.exit (Make.make spec params httpClient) = Make.Failure (Make.ParseError issue) ->
  exists req, In (Make.Execute req) (Make.events (Make.make spec params httpClient)).
Proof.
  rewrite make_phases. unfold Make.requestPhase.
  destruct (Make.prepare spec params) as [l [req|c]] eqn:E.
  - intros _. exists req. unfold_effect. rewrite andThen_assoc, andThen_success.
    simpl. apply in_or_app. right.
    unfold Make.execute, Make.call, Make.andThen.
    destruct (Make.selectClient spec httpClient req) as [r|c]; simpl.
    + destruct (Make.resolve spec r). simpl. by left.
    + by left.
  - unfold_effect. simpl. intros [= ->]. exfalso.
    apply prepare_failure in E as [[e E]|[[e E]|E]]; discriminate E.
Qed.



(** A route whose URL step yields a function value: the headers and body
    steps run, and [HttpClientRequest.make] then throws. *)
Lemma make_function_url spec params httpClient f :
  Make.resolveUrl spec params = ([], Make.Success (Make.UrlFn f)) ->
  Make.make spec params httpClient =
  match Make.getHeaders spec params with
  | (lh, Make.Failure c) => (lh, Make.Failure c)
  | (lh, Make.Success _) =>
      match Make.exit (Make.resolveBody spec params) with
      | Make.Failure c => (lh, Make.Failure c)
      | Make.Success _ => (lh, Make.Failure (Make.Die Make.InvalidUrl))
      end
  end.
Proof.
  intros R. unfold Make.make. rewrite R. unfold_effect.
  change (@pair (list Make.Event) (Make.Exit Make.UrlFunction) []
            (Make.Success (Make.UrlFn f)))
    with (Make.succeed (Make.UrlFn f)).
  rewrite andThen_succeed.
  destruct (Make.getHeaders spec params) as [lh [hs|c]]; [|done].
  rewrite andThen_success.
  pose proof (resolveBody_events spec params) as B.
  destruct (Make.resolveBody spec params) as [lb [b|c]]; simpl in B; subst lb.
  - rewrite andThen_success. simpl. by rewrite app_nil_r.
  - simpl. by rewrite app_nil_r.
Qed.

(** C9. A function given as [url] is not called when the parameter bag is
    absent or has no [url] key: the function value itself is handed to
    [HttpClientRequest.make], which throws, so that the route dies with an
    invalid URL once the headers and the body are resolved, and sends no
    request.  A function given as [headers] is not called when the bag is
    absent or has no [headers] key: [getHeaders] returns the function value,
    and it is what the request gets as headers. *)
Theorem C9_function_descriptor_not_called spec params httpClient :
  (forall f, Make.url spec = Make.UrlFn f ->
     Make.lacks Make.p_url params = true ->
     Make.resolveUrl spec params = ([], Make.Success (Make.UrlFn f)) /\
     Make.HttpClientRequest_make (Make.method spec) (Make.UrlFn f) =
       Make.Failure (Make.Die Make.InvalidUrl) /\
     (forall a, ~ In (Make.CallUrl a)
                  (Make.events (Make.make spec params httpClient))) /\
     (forall req, ~ In (Make.Execute req)
                    (Make.events (Make.make spec params httpClient))) /\
     (forall lh hs lb b,
        Make.getHeaders spec params = (lh, Make.Success hs) ->
        Make.resolveBody spec params = (lb, Make.Success b) ->
        Make.make spec params httpClient =
        (lh, Make.Failure (Make.Die Make.InvalidUrl)))) /\
  (forall g, Make.headers spec = Some (Make.HeadersFn g) ->
     Make.lacks Make.p_headers params = true ->
     Make.getHeaders spec params = ([], Make.Success (Some (Make.HeadersFn g))) /\
     forall l req, Make.prepare spec params = (l, Make.Success req) ->
       Make.req_headers req = Some (Make.HeadersFn g) /\
       forall a, ~ In (Make.CallHeaders a) l).
Proof.
  split.
  - intros f Hu Hl.
    assert (R : Make.resolveUrl spec params = ([], Make.Success (Make.UrlFn f))).
    { unfold Make.resolveUrl, Make.lacks in *. rewrite Hu.
      destruct params as [p|]; [|done]. by destruct (Make.p_url p). }
    split; [done|]. split; [done|].
    pose proof (make_function_url spec params httpClient f R) as M.
    pose proof (getHeaders_events spec params) as H.
    assert (N : forall ev, (forall a, ev <> Make.CallHeaders a) ->
                  ~ In ev (Make.events (Make.make spec params httpClient))).
    { intros ev Hev Hin. rewrite M in Hin.
      rewrite Forall_forall in H.
      assert (Hl' : In ev (Make.events (Make.getHeaders spec params))).
      { destruct (Make.getHeaders spec params) as [lh [hs|c]]; [|done].
        by destruct (Make.exit (Make.resolveBody spec params)). }
      apply list_elem_of_In, H in Hl' as [a ->]. by apply (Hev a). }
    split; [|split].
    + intros a. by apply N.
    + intros req. by apply N.
    + intros lh hs lb b Hh Hb. rewrite M, Hh, Hb. reflexivity.
  - intros g Hh Hl.
    assert (R : Make.getHeaders spec params =
                ([], Make.Success (Some (Make.HeadersFn g)))).
    { unfold Make.getHeaders, Make.lacks in *. rewrite Hh.
      destruct params as [p|]; [|done]. by destruct (Make.p_headers p). }
    split; [done|]. intros l req. unfold Make.prepare. rewrite R.
    unfold Make.resolveUrl, Make.resolveBody, Make.HttpBody_json_effect,
      Make.call, Make.assemble, Make.HttpClientRequest_make.
    unfold_effect. unfold Make.succeed, Make.andThen.
    intros E. repeat case_match; simplify_eq/=; (split; [done|]);
      intros a H; repeat (destruct H as [H|H]; try discriminate H); done.
Qed.

End Claims_request.

Section Claims_client.
Context `{P : Make.Platform}.
Implicit Types (this : Client.Client) (spec : Make.MakerSpec)
  (m : HttpMethod).


(** C10. A per-call spec whose [headers] (or [error]) key is present with the
    value [undefined] yields a route without that descriptor, whatever the
    client's default: the route is the one a client without that default
    builds, and [get], [post], [put] and [del] of the client compile the
    route that has no such descriptor.  With the key absent the default is
    inherited: the four methods compile the route that has the client's
    descriptor.  The other of the two fields is merged on its own. *)
Theorem C10_explicit_undefined_drops_default this spec m (gspec : Make.GetMakerSpec) :
  (Make.s_headers spec = Given None ->
     Make.headers (Client.new_Route this m spec) = None /\
     Client.new_Route this m spec =
     Client.new_Route {| Client.headers := None; Client.error := Client.error this |}
                      m spec /\
     let e := spread (Client.error this) (Make.s_error spec) in
     Client.post this spec = Make.make (Make.routeWith POST None e spec) /\
     Client.put this spec = Make.make (Make.routeWith PUT None e spec) /\
     Client.del this spec = Make.make (Make.routeWith DELETE None e spec)) /\
  (Make.s_error spec = Given None ->
     Make.error (Client.new_Route this m spec) = None /\
     Client.new_Route this m spec =
     Client.new_Route {| Client.headers := Client.headers this; Client.error := None |}
                      m spec /\
     let h := spread (Client.headers this) (Make.s_headers spec) in
     Client.post this spec = Make.make (Make.routeWith POST h None spec) /\
     Client.put this spec = Make.make (Make.routeWith PUT h None spec) /\
     Client.del this spec = Make.make (Make.routeWith DELETE h None spec)) /\
  (Make.s_headers spec = Absent ->
     Make.headers (Client.new_Route this m spec) = Client.headers this /\
     let e := spread (Client.error this) (Make.s_error spec) in
     Client.post this spec =
       Make.make (Make.routeWith POST (Client.headers this) e spec) /\
     Client.put this spec =
       Make.make (Make.routeWith PUT (Client.headers this) e spec) /\
     Client.del this spec =
       Make.make (Make.routeWith DELETE (Client.headers this) e spec)) /\
  (Make.s_error spec = Absent ->
     Make.error (Client.new_Route this m spec) = Client.error this /\
     let h := spread (Client.headers this) (Make.s_headers spec) in
     Client.post this spec =
       Make.make (Make.routeWith POST h (Client.error this) spec) /\
     Client.put this spec =
       Make.make (Make.routeWith PUT h (Client.error this) spec) /\
     Client.del this spec =
       Make.make (Make.routeWith DELETE h (Client.error this) spec)) /\
  (Make.g_headers gspec = Given None ->
     Client.get this gspec =
     Make.make (Make.routeWith GET None
                  (spread (Client.error this) (Make.g_error gspec))
                  (Make.withoutBody gspec))) /\
  (Make.g_error gspec = Given None ->
     Client.get this gspec =
     Make.make (Make.routeWith GET
                  (spread (Client.headers this) (Make.g_headers gspec)) None
                  (Make.withoutBody gspec))) /\
  (Make.g_headers gspec = Absent ->
     Client.get this gspec =
     Make.make (Make.routeWith GET (Client.headers this)
                  (spread (Client.error this) (Make.g_error gspec))
                  (Make.withoutBody gspec))) /\
  (Make.g_error gspec = Absent ->
     Client.get this gspec =
     Make.make (Make.routeWith GET
                  (spread (Client.headers this) (Make.g_headers gspec))
                  (Client.error this) (Make.withoutBody gspec))).
Proof.
  unfold Client.get, Client.post, Client.put, Client.del, Client.new_Route,
    Make.routeWith, Make.withoutBody.
  repeat (split; [intros E; simpl in *; rewrite E; simpl; repeat split; reflexivity|]).
  intros E. simpl in *. rewrite E. reflexivity.
Qed.

End Claims_client.

Section Claims_layer.
Context `{V : Values}.
Implicit Types (config : Layer.Config) (req : Layer.HttpClientRequest).

Lemma layer_rewrite {R : Type} config (client : Layer.HttpClientRequest -> R) req :
  Layer.layer config client req = client (Layer.rewrite config req).
Proof. reflexivity. Qed.

(** C7. The rewriter prepends the base URL exactly when the
    request URL starts with a slash, and sets the [authorization] header to
    [Bearer <token>] exactly when the access token is defined and is not the
    empty string; method and body are never touched, so a request with an
    absolute URL passes unchanged when the token is undefined or empty. *)
Theorem C7_rewriter config req :
  Layer.req_url (Layer.rewrite config req) =
    (if Layer.startsWithSlash (Layer.req_url req)
     then Layer.url config +:+ Layer.req_url req
     else Layer.req_url req) /\
  Layer.req_headers (Layer.rewrite config req) =
    match Layer.accessToken config with
    | Some token =>
        if String.eqb token EmptyString then Layer.req_headers req
        else <[ "authorization" := "Bearer " +:+ token ]> (Layer.req_headers req)
    | None => Layer.req_headers req
    end /\
  Layer.req_method (Layer.rewrite config req) = Layer.req_method req /\
  Layer.req_body (Layer.rewrite config req) = Layer.req_body req /\
  forall (R : Type) (client : Layer.HttpClientRequest -> R),
    Layer.layer config client req = client (Layer.rewrite config req).
Proof.
  assert (L : forall (R : Type) (client : Layer.HttpClientRequest -> R),
             Layer.layer config client req = client (Layer.rewrite config req))
    by reflexivity.
  revert L.
  unfold Layer.rewrite, Layer.prependBaseUrl, Layer.attachBearerToken,
    Layer.bearerToken, Layer.setHeader, Layer.setUrl.
  destruct (Layer.accessToken config) as [token|];
    [destruct (String.eqb token EmptyString)|];
    simpl; destruct (Layer.startsWithSlash (Layer.req_url req)); simpl; done.
Qed.

(** C8. The two rules commute on every request, so the client built with the
    two [mapRequestInput] in the other order is the same.  On a request whose
    URL does not start with a slash and that has an [authorization] header,
    rewriting twice is rewriting once; and when that header already is the
    bearer token of the configuration, rewriting changes nothing. *)
Theorem C8_rules_commute_idempotent config req :
  Layer.prependBaseUrl config (Layer.attachBearerToken config req) =
  Layer.attachBearerToken config (Layer.prependBaseUrl config req) /\
  (forall (R : Type) (client : Layer.HttpClientRequest -> R),
     Layer.mapRequestInput (Layer.prependBaseUrl config)
       (Layer.mapRequestInput (Layer.attachBearerToken config) client) req =
     Layer.layer config client req) /\
  (Layer.startsWithSlash (Layer.req_url req) = false ->
   is_Some (Layer.req_headers req !! "authorization") ->
   Layer.rewrite config (Layer.rewrite config req) = Layer.rewrite config req) /\
  (forall token,
     Layer.startsWithSlash (Layer.req_url req) = false ->
     Layer.accessToken config = Some token ->
     Layer.req_headers req !! "authorization" = Some ("Bearer " +:+ token) ->
     Layer.rewrite config req = req).
Proof.
  assert (C : Layer.prependBaseUrl config (Layer.attachBearerToken config req) =
              Layer.attachBearerToken config (Layer.prependBaseUrl config req)).
  { unfold Layer.prependBaseUrl, Layer.attachBearerToken, Layer.bearerToken,
      Layer.setHeader, Layer.setUrl.
    destruct (Layer.accessToken config) as [token|];
      [destruct (String.eqb token EmptyString)|];
      simpl; destruct (Layer.startsWithSlash (Layer.req_url req)); done. }
  split; [done|]. split; [|split].
  - intros R client. unfold Layer.layer, Layer.mapRequestInput. by rewrite C.
  - intros Hu _.
    unfold Layer.rewrite, Layer.prependBaseUrl, Layer.attachBearerToken,
      Layer.bearerToken, Layer.setHeader, Layer.setUrl.
    destruct (Layer.accessToken config) as [token|];
      [destruct (String.eqb token EmptyString)|]; simpl; rewrite ?Hu; simpl; rewrite ?Hu;
      try done.
    by rewrite insert_insert_eq.
  - intros token Hu Ht Hh.
    unfold Layer.rewrite, Layer.prependBaseUrl, Layer.attachBearerToken,
      Layer.bearerToken, Layer.setHeader, Layer.setUrl.
    rewrite Ht. destruct req as [m u h b]. simpl in *.
    destruct (String.eqb token EmptyString); simpl; rewrite Hu; [done|].
    by rewrite insert_id.
Qed.

End Claims_layer.

(** ** The definitions run on the concrete platform *)

(** A dynamic URL is resolved with [params.url]; the rewriter then prefixes
    the base URL. *)
Example resolveUrl_todo :
  Make.resolveUrl (V := Demo.values) Demo.getTodoById (Demo.urlParams "42") =
  ([Make.CallUrl (V := Demo.values) "42"], Make.Success (Make.UrlString "/todos/42")).
Proof. reflexivity. Qed.

Example rewrite_todo :
  Layer.rewrite Demo.withToken (Demo.platformRequest "/todos/42" ∅) =
  Demo.platformRequest "https://api.example.com/todos/42"
    {[ "authorization" := "Bearer ey" ]}.
Proof. reflexivity. Qed.

(** A bad status with an error function: the route fails with its value. *)
Example make_404_with_error_fn :
  Make.make (P := Demo.platform) Demo.getTodoOrFail Demo.noParams
    (Demo.answering Demo.notFound) =
  ([Make.Execute (Demo.request GET (Make.UrlString "/todos/1") None None);
    Make.GetError Demo.notFound; Make.CallErrorFn Demo.notFound],
   Make.Failure (V := Demo.values) (Make.Fail (V := Demo.values) "Request failed")).
Proof. reflexivity. Qed.

(** C5. A route with a body schema, called with a body that does not
    validate against it, does not fail with a parse error:
    the request is sent, with the JSON text of the effect object as its
    body, and the route succeeds with the response. *)
Theorem C5_validation_failure_not_raised :
  Make.encode (Platform := Demo.platform) Demo.NonEmptyString EmptyString =
    inl "Expected a non empty string" /\
  Make.make (P := Demo.platform) Demo.createTodo (Demo.bodyParams EmptyString)
    (Demo.answering Demo.okTodo) =
  ([Make.Execute
      (Demo.request POST (Make.UrlString "/todos") None (Some "{_id:Effect}"));
    Make.GetResponse Demo.okTodo],
   Make.Success (Make.Raw Demo.okTodo)).
Proof. split; reflexivity. Qed.

(** C7, for a token that is defined but empty: the rewriter sets no
    [authorization] header and the request passes unchanged, so a defined
    token does not always give the header. *)
Lemma C7_counterexample :
  Layer.accessToken Demo.emptyToken = Some EmptyString /\
  Layer.rewrite Demo.emptyToken
    (Demo.platformRequest "https://other.example.com/data" ∅) =
  Demo.platformRequest "https://other.example.com/data" ∅ /\
  ~ (forall (config : Layer.Config) (req : @Layer.HttpClientRequest Demo.values)
            (token : string),
       Layer.accessToken config = Some token ->
       Layer.req_headers (Layer.rewrite config req) !! "authorization" =
       Some ("Bearer " +:+ token)).
Proof.
  split; [reflexivity|]. split; [reflexivity|].
  intros H.
  specialize (H Demo.emptyToken
                (Demo.platformRequest "https://other.example.com/data" ∅)
                EmptyString eq_refl).
  discriminate H.
Qed.

(** ** The theorems at concrete routes *)

(** A client default is inherited when the per-call spec has no [error] key,
    and replaced when it has one. *)
Example client_error_inherited :
  Make.error (Client.new_Route Demo.apiClient GET (Demo.perCall Absent Absent)) =
    Some Demo.requestFailed /\
  Make.error (Client.new_Route Demo.apiClient GET
                (Demo.perCall Absent (Given (Some Demo.apiError)))) =
    Some Demo.apiError.
Proof. split; reflexivity. Qed.

Lemma C1_witness :
  Make.make (P := Demo.platform) Demo.getTodo Demo.noParams
    (Demo.answering Demo.notFound) =
  ([Make.Execute (Demo.request GET (Make.UrlString "/todos/1") None None);
    Make.GetResponse Demo.notFound],
   Make.Success (Make.Raw Demo.notFound)).
Proof.
  destruct (C1_error_path_iff (P := Demo.platform) Demo.getTodo Demo.noParams
              (Demo.answering Demo.notFound)
              [Make.Execute (Demo.request GET (Make.UrlString "/todos/1") None None)]
              Demo.notFound) as (_ & _ & _ & H).
  - reflexivity.
  - reflexivity.
  - rewrite H; [reflexivity|]. intros [[g Hg] _]. discriminate Hg.
Defined.

(** C2. A route whose error descriptor is a schema, on a 404 response whose
    body decodes against that schema: the route does not fail with the
    decoded value; the schema is called as a function and the route dies,
    without the body being read. *)
Theorem C2_schema_descriptor_dies :
  Make.json Demo.notFound = Make.Success (V := Demo.values) "missing" /\
  Make.decodeUnknown (Platform := Demo.platform) Demo.AnyString "missing" =
    inr "missing" /\
  Make.make (P := Demo.platform) Demo.getTodoOrApiError Demo.noParams
    (Demo.answering Demo.notFound) =
  ([Make.Execute (Demo.request GET (Make.UrlString "/todos/1") None None);
    Make.GetError Demo.notFound; Make.CallErrorFn Demo.notFound],
   Make.Failure (Make.Die Make.ClassCalledWithoutNew)).
Proof. repeat split; reflexivity. Qed.

(** C3. A route whose response descriptor is a schema, on a 200 response
    whose body decodes against that schema: the route does not succeed with
    the decoded value; the schema is called as a function and the route
    dies, without the body being read. *)
Theorem C3_schema_descriptor_dies :
  Make.json Demo.okTodo = Make.Success (V := Demo.values) "todo" /\
  Make.decodeUnknown (Platform := Demo.platform) Demo.NonEmptyString "todo" =
    inr "todo" /\
  Make.make (P := Demo.platform) Demo.getTodoDecoded Demo.noParams
    (Demo.answering Demo.okTodo) =
  ([Make.Execute (Demo.request GET (Make.UrlString "/todos/1") None None);
    Make.GetResponse Demo.okTodo; Make.CallResponseFn Demo.okTodo],
   Make.Failure (Make.Die Make.ClassCalledWithoutNew)).
Proof. repeat split; reflexivity. Qed.

Lemma C4_witness :
  Make.make (P := Demo.platform) Demo.getTodoFiltered Demo.noParams
    (Demo.answering Demo.notFound) =
  ([Make.Execute (Demo.request GET (Make.UrlString "/todos/1") None None)],
   Make.Failure (Make.ResponseError Make.StatusCode)).
Proof.
  destruct (C4_filter_status_ok (P := Demo.platform) Demo.getTodoFiltered
              Demo.noParams (Demo.answering Demo.notFound)) as (_ & _ & _ & H).
  - reflexivity.
  - apply (H [] (Demo.request GET (Make.UrlString "/todos/1") None None)
             Demo.notFound).
    + reflexivity.
    + reflexivity.
    + simpl. lia.
Defined.

Lemma C8_witness :
  Layer.rewrite Demo.withToken
    (Layer.rewrite Demo.withToken
       (Demo.platformRequest "https://other.example.com/data"
          {[ "authorization" := "Basic abc" ]})) =
  Layer.rewrite Demo.withToken
    (Demo.platformRequest "https://other.example.com/data"
       {[ "authorization" := "Basic abc" ]}).
Proof.
  destruct (C8_rules_commute_idempotent (V := Demo.values) Demo.withToken
              (Demo.platformRequest "https://other.example.com/data"
                 {[ "authorization" := "Basic abc" ]})) as (_ & _ & H & _).
  apply H.
  - reflexivity.
  - exists "Basic abc". reflexivity.
Defined.

(** C9, for a function URL called without argument: no request is built
    with the function as its URL; the route dies before any request. *)
Lemma C9_counterexample :
  Make.make (P := Demo.platform) Demo.getTodoById Demo.noParams
    (Demo.answering Demo.okTodo) =
    ([], Make.Failure (Make.Die Make.InvalidUrl)) /\
  ~ (exists req,
       In (Make.Execute req)
          (Make.events (Make.make (P := Demo.platform) Demo.getTodoById
                          Demo.noParams (Demo.answering Demo.okTodo))) /\
       Make.req_url req = Demo.todoUrl).
Proof.
  split; [reflexivity|]. intros (req & H & _). exact H.
Qed.

Lemma C9_witness :
  Make.make (P := Demo.platform) Demo.getTodoById Demo.noParams
    (Demo.answering Demo.okTodo) =
    ([], Make.Failure (Make.Die Make.InvalidUrl)) /\
  Make.req_headers
    (Demo.request GET (Make.UrlString "/todos/1") (Some Demo.versionHeaders) None) =
    Some Demo.versionHeaders.
Proof.
  split.
  - destruct (C9_function_descriptor_not_called (P := Demo.platform)
                Demo.getTodoById Demo.noParams (Demo.answering Demo.okTodo))
      as [Hu _].
    destruct (Hu (fun id => "/todos/" +:+ id)) as (_ & _ & _ & _ & H).
    + reflexivity.
    + reflexivity.
    + apply (H [] (Some Demo.versionHeaders) [] None); reflexivity.
  - destruct (C9_function_descriptor_not_called (P := Demo.platform)
                Demo.getWithVersion Demo.noParams (Demo.answering Demo.okTodo))
      as [_ Hh].
    destruct (Hh (fun v => inr {[ "x-api-version" := v ]})) as [_ H].
    + reflexivity.
    + reflexivity.
    + apply (H [] (Demo.request GET (Make.UrlString "/todos/1")
                     (Some Demo.versionHeaders) None)).
      reflexivity.
Defined.

Lemma C10_witness :
  Make.make (P := Demo.platform)
    (Make.routeWith GET None (Some Demo.requestFailed)
       (Make.withoutBody (Demo.getSpec (Given None) Absent)))
    Demo.noParams (Demo.answering Demo.notFound) =
  Client.get (P := Demo.platform) Demo.apiClient (Demo.getSpec (Given None) Absent)
    Demo.noParams (Demo.answering Demo.notFound) /\
  Make.make (P := Demo.platform)
    (Make.routeWith POST (Some Demo.versionHeaders) (Some Demo.apiError)
       (Demo.perCall Absent (Given (Some Demo.apiError))))
    Demo.noParams (Demo.answering Demo.notFound) =
  Client.post (P := Demo.platform) Demo.apiClient
    (Demo.perCall Absent (Given (Some Demo.apiError)))
    Demo.noParams (Demo.answering Demo.notFound).
Proof.
  destruct (C10_explicit_undefined_drops_default (P := Demo.platform)
              Demo.apiClient (Demo.perCall Absent (Given (Some Demo.apiError)))
              GET (Demo.getSpec (Given None) Absent))
    as (_ & _ & Ha & _ & Hg & _).
  split.
  - rewrite Hg; reflexivity.
  - destruct Ha as (_ & Hp & _); [reflexivity|]. rewrite Hp. reflexivity.
Defined.

(** * Further properties of the route compiler *)

Ltac unfold_prepare :=
  unfold Make.prepare, Make.resolveUrl, Make.getHeaders, Make.resolveBody,
    Make.HttpBody_json_effect, Make.assemble, Make.HttpClientRequest_make,
    Make.call, Make.ofUser in *;
  unfold_effect; unfold Make.succeed, Make.andThen in *.

Ltac unfold_make :=
  unfold Make.make, Make.requestPhase, Make.prepare, Make.resolve, Make.failed,
    Make.selectClient, Make.resolveUrl, Make.getHeaders, Make.resolveBody,
    Make.getError, Make.getResponse, Make.typeofFunction_error,
    Make.typeofFunction_output, Make.parseResponse, Make.response_json,
    Make.Schema_decodeUnknown, Make.HttpBody_json_effect, Make.execute,
    Make.assemble, Make.HttpClientRequest_make, Make.call, Make.fail,
    Make.ofUser in *;
  unfold_effect; unfold Make.succeed, Make.andThen in *.

Section RequestsSent.
Context `{P : Make.Platform}.
Implicit Types (spec : Make.Route) (params : option Make.Params)
  (httpClient : Make.HttpClient) (r : Make.HttpClientResponse)
  (l : list Make.Event).

Lemma executed_app l1 l2 :
  Make.executed (l1 ++ l2) = Make.executed l1 ++ Make.executed l2.
Proof. apply omap_app. Qed.

(** Assembling the request sends nothing. *)
Lemma executed_prepare spec params :
  Make.executed (Make.events (Make.prepare spec params)) = [].
Proof.
  unfold_prepare. repeat case_match; simplify_eq; reflexivity.
Qed.

(** Resolving the response sends nothing. *)
Lemma executed_resolve spec r :
  Make.executed (Make.events (Make.resolve spec r)) = [].
Proof.
  unfold Make.resolve, Make.getError, Make.getResponse,
    Make.typeofFunction_error, Make.typeofFunction_output, Make.parseResponse,
    Make.response_json, Make.Schema_decodeUnknown, Make.call, Make.fail,
    Make.ofUser.
  unfold_effect. unfold Make.succeed, Make.andThen.
  repeat case_match; simplify_eq; reflexivity.
Qed.

(** The events of [make], by how far the run gets. *)
Lemma make_events spec params httpClient :
  Make.events (Make.make spec params httpClient) =
  match Make.prepare spec params with
  | (l, Make.Failure _) => l
  | (l, Make.Success req) =>
      match Make.selectClient spec httpClient req with
      | Make.Failure _ => l ++ [Make.Execute req]
      | Make.Success r =>
          (l ++ [Make.Execute req]) ++ Make.events (Make.resolve spec r)
      end
  end.
Proof.
  rewrite make_phases.
  destruct (Make.prepare spec params) as [l [req|c]] eqn:E.
  - rewrite (requestPhase_prepared _ _ _ _ _ E).
    destruct (Make.selectClient spec httpClient req) as [r|c]; [|done].
    by rewrite andThen_success.
  - unfold Make.requestPhase. unfold_effect. by rewrite E.
Qed.

Lemma executed_make spec params httpClient :
  Make.executed (Make.events (Make.make spec params httpClient)) =
  match Make.exit (Make.prepare spec params) with
  | Make.Success req => [req]
  | Make.Failure _ => []
  end.
Proof.
  rewrite make_events.
  pose proof (executed_prepare spec params) as Hp.
  destruct (Make.prepare spec params) as [l [req|c]]; simpl in *; [|done].
  destruct (Make.selectClient spec httpClient req) as [r|c].
  - rewrite !executed_app, Hp, executed_resolve. reflexivity.
  - rewrite executed_app, Hp. reflexivity.
Qed.

(** X1. One invocation of a compiled route hands exactly one request to the
    transport when the request can be assembled (the one assembled), and none
    when the headers function or the body constructor fails. *)
Theorem X1_single_exchange spec params httpClient :
  Make.executed (Make.events (Make.make spec params httpClient)) =
  match Make.exit (Make.prepare spec params) with
  | Make.Success req => [req]
  | Make.Failure _ => []
  end.
Proof. apply executed_make. Qed.

(** [resolveUrl] never fails. *)
Lemma resolveUrl_succeeds spec params :
  exists u, Make.resolveUrl spec params = (Make.events (Make.resolveUrl spec params),
                                          Make.Success u).
Proof.
  unfold Make.resolveUrl, Make.call. unfold_effect. unfold Make.succeed.
  repeat case_match; simpl; eauto.
Qed.

(** X2. When the headers descriptor is a function and the parameter bag has a
    [headers] key, a failure of the function fails the route with the same
    value; the function was called once, after the URL was resolved, and no
    request is sent. *)
Theorem X2_headers_failure_stops spec params httpClient f a e :
  Make.headers spec = Some (Make.HeadersFn f) ->
  Make.param Make.p_headers params = Some a ->
  f a = inl e ->
  Make.make spec params httpClient =
    (Make.events (Make.resolveUrl spec params) ++ [Make.CallHeaders a],
     Make.Failure (Make.Fail e)) /\
  Make.executed (Make.events (Make.make spec params httpClient)) = [].
Proof.
  intros Hh Hp Hf.
  assert (G : Make.getHeaders spec params =
              ([Make.CallHeaders a], Make.Failure (Make.Fail e))).
  { unfold Make.getHeaders, Make.param in *. rewrite Hh.
    destruct params as [p|]; [|done]. rewrite Hp.
    unfold Make.call, Make.ofUser. unfold_effect. by rewrite Hf. }
  assert (M : Make.make spec params httpClient =
              (Make.events (Make.resolveUrl spec params) ++ [Make.CallHeaders a],
               Make.Failure (Make.Fail e))).
  { unfold Make.make. unfold_effect.
    destruct (resolveUrl_succeeds spec params) as [u ->].
    rewrite andThen_success, G. reflexivity. }
  split; [done|].
  rewrite executed_make. unfold Make.prepare. unfold_effect.
  destruct (resolveUrl_succeeds spec params) as [u ->].
  rewrite andThen_success, G. reflexivity.
Qed.

(** X3. When the route has a body schema, the parameter bag a [body] key and
    the headers are resolved, a failure of [HttpBody.json] fails the route
    with that [HttpBodyError], and no request is sent. *)
Theorem X3_body_error_stops spec params httpClient lh hs schema a e :
  Make.getHeaders spec params = (lh, Make.Success hs) ->
  Make.body spec = Some schema ->
  Make.param Make.p_body params = Some a ->
  Make.HttpBody_json (Make.JsEffect (Make.Schema_encode schema a)) = inl e ->
  Make.make spec params httpClient =
    (Make.events (Make.resolveUrl spec params) ++ lh,
     Make.Failure (Make.HttpBodyError e)) /\
  Make.executed (Make.events (Make.make spec params httpClient)) = [].
Proof.
  intros Hh Hb Hp He.
  assert (B : Make.resolveBody spec params = ([], Make.Failure (Make.HttpBodyError e))).
  { unfold Make.resolveBody, Make.param in *. rewrite Hb.
    destruct params as [p|]; [|done]. rewrite Hp.
    unfold Make.HttpBody_json_effect. unfold_effect. by rewrite He. }
  assert (M : Make.make spec params httpClient =
              (Make.events (Make.resolveUrl spec params) ++ lh,
               Make.Failure (Make.HttpBodyError e))).
  { unfold Make.make. unfold_effect.
    destruct (resolveUrl_succeeds spec params) as [u ->].
    rewrite andThen_success, Hh, andThen_success, B. simpl.
    by rewrite app_nil_r. }
  split; [done|].
  rewrite executed_make. unfold Make.prepare. unfold_effect.
  destruct (resolveUrl_succeeds spec params) as [u ->].
  rewrite andThen_success, Hh, andThen_success, B. reflexivity.
Qed.

(** X4. A failure of the transport is the failure of the route, unchanged,
    with or without [filterStatusOk]; neither resolver is entered. *)
Theorem X4_transport_failure_propagates spec params httpClient l req c :
  Make.prepare spec params = (l, Make.Success req) ->
  httpClient req = Make.Failure c ->
  Make.make spec params httpClient = (l ++ [Make.Execute req], Make.Failure c).
Proof.
  intros E Hc.
  rewrite make_phases, (requestPhase_prepared _ _ _ _ _ E).
  unfold Make.selectClient, Make.HttpClient_filterStatusOk.
  destruct (falsy _); by rewrite Hc.
Qed.

(** X5. On a response with a status in 200..299 the route is [getResponse]
    on that response, whatever the error descriptor and [filterStatusOk]
    are. *)
Theorem X5_ok_status_resolves_response spec params httpClient l req r :
  Make.prepare spec params = (l, Make.Success req) ->
  httpClient req = Make.Success r ->
  200 <= Make.status r < 300 ->
  Make.make spec params httpClient =
    ((l ++ [Make.Execute req]) ++ Make.events (Make.getResponse (Make.response spec) r),
     Make.exit (Make.getResponse (Make.response spec) r)).
Proof.
  intros E Hc Hs.
  assert (T : (200 <=? Make.status r) && (Make.status r <? 300) = true).
  { apply andb_true_iff. rewrite Z.leb_le, Z.ltb_lt. lia. }
  assert (R : Make.requestPhase spec params httpClient =
              (l ++ [Make.Execute req], Make.Success r)).
  { rewrite (requestPhase_prepared _ _ _ _ _ E).
    unfold Make.selectClient, Make.HttpClient_filterStatusOk.
    destruct (falsy _); rewrite Hc; [done|]. by rewrite T. }
  pose proof (make_resolved spec params httpClient _ r R) as M.
  assert (F : Make.failed spec r = None).
  { apply failed_None. intros (_ & _ & Hb). unfold Make.badStatus in Hb. lia. }
  by rewrite F in M.
Qed.

(** The request phase and the classification do not read the [response]
    field. *)
Lemma requestPhase_withResponse spec params httpClient o :
  Make.requestPhase (Make.withResponse o spec) params httpClient =
  Make.requestPhase spec params httpClient.
Proof. reflexivity. Qed.

(** X6. When the response is classified as failed, the response descriptor
    plays no part: the run is the same for every response descriptor. *)
Theorem X6_failed_ignores_response_descriptor spec params httpClient l r getter o :
  Make.requestPhase spec params httpClient = (l, Make.Success r) ->
  Make.failed spec r = Some getter ->
  Make.make (Make.withResponse o spec) params httpClient =
  Make.make spec params httpClient.
Proof.
  intros E F.
  pose proof (make_resolved spec params httpClient l r E) as M.
  pose proof (make_resolved (Make.withResponse o spec) params httpClient l r) as M'.
  rewrite requestPhase_withResponse in M'. specialize (M' E).
  change (Make.failed (Make.withResponse o spec) r) with (Make.failed spec r) in M'.
  rewrite F in M, M'.
  destruct M as (c & Hc & ->). destruct M' as (c' & Hc' & ->).
  rewrite Hc in Hc'. by injection Hc' as <-.
Qed.

(** X7. The assembled request has the method of the route and a string as
    its URL, the static URL of the route when it has one.  An absent headers
    descriptor means that [setHeaders] is not called, and a static header set
    is handed to it as it is, whatever the parameter bag holds.  The request
    has a body exactly when the route has a body schema and the bag a [body]
    key; the body is what [HttpBody.json] made of the effect [Schema.encode]
    returned, and [setBody] then sets [content-type] and [content-length]
    from it (each when truthy), which are the only headers set besides. *)
Theorem X7_request_assembly spec params l req :
  Make.prepare spec params = (l, Make.Success req) ->
  Make.req_method req = Make.method spec /\
  (exists s, Make.req_url req = Make.UrlString s) /\
  (forall s, Make.url spec = Make.UrlString s -> Make.req_url req = Make.UrlString s) /\
  (Make.headers spec = None -> Make.req_headers req = None) /\
  (forall h, Make.headers spec = Some (Make.HeadersValue h) ->
     Make.req_headers req = Some (Make.HeadersValue h)) /\
  (is_Some (Make.req_body req) <->
     is_Some (Make.body spec) /\ is_Some (Make.param Make.p_body params)) /\
  (forall b, Make.req_body req = Some b ->
     exists schema a, Make.body spec = Some schema /\
       Make.param Make.p_body params = Some a /\
       Make.HttpBody_json (Make.JsEffect (Make.Schema_encode schema a)) = inr b) /\
  Make.req_bodyHeaders req =
    match Make.req_body req with
    | None => ∅
    | Some b =>
        let hs := if String.eqb (Make.contentType b) EmptyString then ∅
                  else {[ "content-type" := Make.contentType b ]} in
        if Nat.eqb (Make.contentLength b) 0 then hs
        else <[ "content-length" := pretty (Make.contentLength b) ]> hs
    end.
Proof.
  unfold Make.param. unfold_prepare. unfold Make.setBody, Make.setHeaders.
  intros E.
  repeat case_match; simplify_eq; simpl in *;
    (split; [done|]); (split; [eauto|]); (split; [by intros ? [= <-]|]);
    (split; [by intros|]); (split; [by intros ? [= <-]|]);
    (split; [split; [intros [? ?]|intros [[? ?] [? ?]]]; simplify_eq; eauto|]);
    (split; [intros ? ?; simplify_eq; eauto|]);
    repeat case_match; simplify_eq; try reflexivity; try congruence.
Qed.

(** X8. A function given as [url] (as [headers]) is called with [params.url]
    (with [params.headers]) when the bag has that key, and what it returns is
    the URL (the header set) of the request; assembling the request makes
    these calls, the URL first, and no other. *)
Theorem X8_dynamic_descriptors spec params l req :
  Make.prepare spec params = (l, Make.Success req) ->
  (forall f a, Make.url spec = Make.UrlFn f ->
     Make.param Make.p_url params = Some a ->
     Make.req_url req = Make.UrlString (f a)) /\
  (forall g b, Make.headers spec = Some (Make.HeadersFn g) ->
     Make.param Make.p_headers params = Some b ->
     exists hs, g b = inr hs /\ Make.req_headers req = Some (Make.HeadersValue hs)) /\
  l = match Make.url spec, Make.param Make.p_url params with
      | Make.UrlFn _, Some a => [Make.CallUrl a]
      | _, _ => []
      end ++
      match Make.headers spec, Make.param Make.p_headers params with
      | Some (Make.HeadersFn _), Some b => [Make.CallHeaders b]
      | _, _ => []
      end.
Proof.
  unfold Make.param. unfold_prepare. intros E.
  repeat case_match; simplify_eq; simpl in *;
    (split; [intros; simplify_eq; done|]);
    (split; [intros; simplify_eq; eauto|]); reflexivity.
Qed.

(** The request of a run is the assembled one. *)
Lemma executed_prepared spec params httpClient req :
  In req (Make.executed (Make.events (Make.make spec params httpClient))) ->
  exists l, Make.prepare spec params = (l, Make.Success req).
Proof.
  rewrite executed_make.
  destruct (Make.prepare spec params) as [l [req'|c]]; simpl; [|done].
  intros [<-|[]]. eauto.
Qed.

(** X9. Every request a route built by [get], [post], [put] or [del] sends
    has that method, and a request of a [get] route never has a body,
    whatever the parameter bag holds. *)
Theorem X9_method_constructors (gspec : Make.GetMakerSpec) (mspec : Make.MakerSpec)
    params httpClient req :
  (In req (Make.executed (Make.events (Make.get gspec params httpClient))) ->
     Make.req_method req = GET /\ Make.req_body req = None) /\
  (In req (Make.executed (Make.events (Make.post mspec params httpClient))) ->
     Make.req_method req = POST) /\
  (In req (Make.executed (Make.events (Make.put mspec params httpClient))) ->
     Make.req_method req = PUT) /\
  (In req (Make.executed (Make.events (Make.del mspec params httpClient))) ->
     Make.req_method req = DELETE).
Proof.
  assert (M : forall spec, In req (Make.executed
                (Make.events (Make.make spec params httpClient))) ->
              Make.req_method req = Make.method spec /\
              (Make.body spec = None -> Make.req_body req = None)).
  { intros spec H. apply executed_prepared in H as [l E]. revert E.
    unfold_prepare. intros E. repeat case_match; simplify_eq; done. }
  unfold Make.get, Make.post, Make.put, Make.del.
  split; [|split; [|split]]; intros H; apply M in H as [H1 H2]; auto.
Qed.

(** X10. A route succeeds only on a response of its one request: without a
    response descriptor it succeeds with that very response, and with a
    function descriptor with what the function succeeds with on that
    response; with a schema descriptor it never succeeds. *)
Theorem X10_output_shape spec params httpClient o :
  Make.exit (Make.make spec params httpClient) = Make.Success o ->
  exists req r,
    Make.executed (Make.events (Make.make spec params httpClient)) = [req] /\
    Make.selectClient spec httpClient req = Make.Success r /\
    match Make.response spec with
    | None => o = Make.Raw r
    | Some (Make.OutputFn f) => f r = inr o
    | Some (Make.OutputSchema _) => False
    end.
Proof.
  intros H. rewrite executed_make.
  destruct (Make.prepare spec params) as [l [req|c]] eqn:E; simpl.
  2:{ rewrite make_phases in H. unfold Make.requestPhase in H.
      unfold_effect. by rewrite E in H. }
  pose proof (requestPhase_prepared spec params httpClient l req E) as R.
  destruct (Make.selectClient spec httpClient req) as [r|c] eqn:S.
  2:{ rewrite make_phases, R in H. done. }
  exists req, r. split; [done|]. split; [done|].
  destruct (Make.failed spec r) as [getter|] eqn:F.
  { rewrite (getError_runs spec params httpClient _ r getter R F) in H.
    by destruct getter. }
  rewrite (getResponse_runs spec params httpClient _ r R F) in H.
  destruct (Make.response spec) as [[s|f]|]; simpl in H.
  - done.
  - destruct (f r); [done|]. by injection H as ->.
  - by injection H as ->.
Qed.

(** X11. Nothing is resolved, read or decoded unless the transport answered:
    an event other than the calls of the URL and headers functions and the
    request itself occurs only in a run whose one request got a response. *)
Theorem X11_resolution_after_response spec params httpClient ev :
  Make.requestEvent ev = false ->
  In ev (Make.events (Make.make spec params httpClient)) ->
  exists req r,
    Make.executed (Make.events (Make.make spec params httpClient)) = [req] /\
    Make.selectClient spec httpClient req = Make.Success r.
Proof.
  intros Hev Hin. rewrite executed_make. revert Hin. rewrite make_events.
  assert (Q : forall l, Forall (fun ev => Make.requestEvent ev = true) l ->
                        ~ In ev l).
  { intros l F H. rewrite Forall_forall in F.
    apply list_elem_of_In, F in H. congruence. }
  assert (Fp : Forall (fun ev => Make.requestEvent ev = true)
                 (Make.events (Make.prepare spec params))).
  { unfold_prepare. repeat case_match; simplify_eq; repeat constructor. }
  destruct (Make.prepare spec params) as [l [req|c]]; simpl in *.
  - destruct (Make.selectClient spec httpClient req) as [r|c] eqn:S;
      [intros _; eauto|].
    intros H. exfalso. apply (Q (l ++ [Make.Execute req])); [|done].
    apply Forall_app. split; [done|]. by repeat constructor.
  - intros H. exfalso. by apply (Q l).
Qed.

(** X17. Calling a compiled route without an argument is calling it with
    the empty object. *)
Theorem X17_no_argument_is_empty_bag spec httpClient :
  Make.make spec None httpClient = Make.make spec (Some Make.emptyParams) httpClient.
Proof.
  unfold Make.make, Make.resolveUrl, Make.getHeaders, Make.resolveBody. simpl.
  destruct (Make.url spec), (Make.headers spec) as [[h|g]|], (Make.body spec);
    reflexivity.
Qed.

(** X18. A route whose URL and headers are not functions and that has no
    body schema ignores its argument: every parameter bag gives the run of
    the call without argument. *)
Theorem X18_undeclared_parameters_ignored spec params httpClient :
  (forall f, Make.url spec <> Make.UrlFn f) ->
  (forall g, Make.headers spec <> Some (Make.HeadersFn g)) ->
  Make.body spec = None ->
  Make.make spec params httpClient = Make.make spec None httpClient.
Proof.
  intros Hu Hh Hb.
  unfold Make.make, Make.resolveUrl, Make.getHeaders, Make.resolveBody.
  rewrite Hb.
  destruct (Make.url spec) as [s|u]; [|by destruct (Hu u)].
  destruct (Make.headers spec) as [[h|g]|]; [| by destruct (Hh g) |];
    by destruct params.
Qed.






End RequestsSent.

(** * Further properties of the request rewriter *)
Section RewriterFacts.
Context `{V : Values}.
Implicit Types (config : Layer.Config) (req : Layer.HttpClientRequest).

Lemma startsWithSlash_append (base u : string) :
  base <> EmptyString ->
  Layer.startsWithSlash (base +:+ u) = Layer.startsWithSlash base.
Proof.
  unfold Layer.startsWithSlash. destruct base as [|a base]; [done|]. intros _.
  simpl. case_match; [|done].
  by destruct base, u.
Qed.

Lemma rules_commute config req :
  Layer.prependBaseUrl config (Layer.attachBearerToken config req) =
  Layer.attachBearerToken config (Layer.prependBaseUrl config req).
Proof.
  unfold Layer.prependBaseUrl, Layer.attachBearerToken, Layer.bearerToken,
    Layer.setHeader, Layer.setUrl.
  destruct (Layer.accessToken config) as [token|];
    [destruct (String.eqb token EmptyString)|];
    simpl; destruct (Layer.startsWithSlash (Layer.req_url req)); done.
Qed.

Lemma attachBearerToken_idempotent config req :
  Layer.attachBearerToken config (Layer.attachBearerToken config req) =
  Layer.attachBearerToken config req.
Proof.
  unfold Layer.attachBearerToken, Layer.bearerToken, Layer.setHeader.
  destruct (Layer.accessToken config) as [token|]; [|done].
  destruct (String.eqb token EmptyString); [done|]. simpl.
  by rewrite insert_insert_eq.
Qed.

(** X12. With a base URL that does not itself start with a slash, the
    rewriter is idempotent on every request: a URL it has prefixed is not
    prefixed again, and the bearer header is set to the same value. *)
Theorem X12_rewrite_idempotent config req :
  Layer.startsWithSlash (Layer.url config) = false ->
  Layer.rewrite config (Layer.rewrite config req) = Layer.rewrite config req.
Proof.
  intros Hb.
  assert (U : forall r, Layer.prependBaseUrl config (Layer.prependBaseUrl config r) =
                        Layer.prependBaseUrl config r).
  { intros r. unfold Layer.prependBaseUrl, Layer.setUrl.
    destruct (Layer.startsWithSlash (Layer.req_url r)) eqn:Hu; simpl; [|by rewrite Hu].
    destruct (Layer.url config) as [|a base] eqn:Hc.
    - change (EmptyString +:+ Layer.req_url r) with (Layer.req_url r).
      by rewrite Hu.
    - rewrite startsWithSlash_append by done. by rewrite Hb. }
  unfold Layer.rewrite.
  rewrite <- (rules_commute config (Layer.attachBearerToken config req)).
  by rewrite U, attachBearerToken_idempotent.
Qed.

(** X13. With a base URL that starts with a slash, a relative URL is
    prefixed again each time the rewriter runs: rewriting twice gives the
    base URL twice. *)
Theorem X13_relative_base_prefixed_again config req :
  Layer.startsWithSlash (Layer.url config) = true ->
  Layer.startsWithSlash (Layer.req_url req) = true ->
  Layer.req_url (Layer.rewrite config (Layer.rewrite config req)) =
  Layer.url config +:+ (Layer.url config +:+ Layer.req_url req).
Proof.
  intros Hb Hu.
  assert (Ne : Layer.url config <> EmptyString).
  { intros E. by rewrite E in Hb. }
  assert (S : forall r, Layer.startsWithSlash (Layer.req_url r) = true ->
                Layer.req_url (Layer.rewrite config r) =
                Layer.url config +:+ Layer.req_url r).
  { intros r Hr. unfold Layer.rewrite, Layer.prependBaseUrl,
      Layer.attachBearerToken, Layer.bearerToken, Layer.setHeader, Layer.setUrl.
    destruct (Layer.accessToken config) as [token|];
      [destruct (String.eqb token EmptyString)|]; simpl; by rewrite Hr. }
  rewrite S; rewrite (S req Hu); [done|].
  rewrite startsWithSlash_append by done. exact Hb.
Qed.

(** X14. The rewriter touches no header but [authorization]: every other
    header of the request is kept, present or not; and with a non-empty token
    the [authorization] header is the bearer token whatever it was before. *)
Theorem X14_other_headers_kept config req :
  (forall k, k <> "authorization" ->
     Layer.req_headers (Layer.rewrite config req) !! k = Layer.req_headers req !! k) /\
  (forall token, Layer.accessToken config = Some token -> token <> EmptyString ->
     Layer.req_headers (Layer.rewrite config req) !! "authorization" =
     Some ("Bearer " +:+ token)).
Proof.
  assert (H : Layer.req_headers (Layer.rewrite config req) =
              Layer.req_headers (Layer.attachBearerToken config req)).
  { unfold Layer.rewrite, Layer.prependBaseUrl, Layer.setUrl.
    by destruct (Layer.startsWithSlash _). }
  rewrite H. unfold Layer.attachBearerToken, Layer.bearerToken, Layer.setHeader.
  split.
  - intros k Hk. destruct (Layer.accessToken config) as [token|]; [|done].
    destruct (String.eqb token EmptyString); [done|]. simpl.
    by rewrite lookup_insert_ne.
  - intros token -> Ht. apply String.eqb_neq in Ht. rewrite Ht. simpl.
    by rewrite lookup_insert_eq.
Qed.

End RewriterFacts.

(** * Further properties of the client *)
Section ClientFacts.
Context `{P : Make.Platform}.

Lemma new_Route_no_defaults (m : HttpMethod) (spec : Make.MakerSpec) :
  Client.new_Route {| Client.headers := None; Client.error := None |} m spec =
  Make.new_Route m spec.
Proof.
  unfold Client.new_Route, Make.new_Route, spread, read. simpl.
  by destruct (Make.s_headers spec), (Make.s_error spec).
Qed.

(** X15. The routes of [Client.make(config)] run with the [HttpClient] that
    was in the context when [make] ran: each is the client method of the same
    name, with the defaults of [config], on that [HttpClient], and the one in
    the context of the call is not used. *)
Theorem X15_make_captures_HttpClient (config : option Client.Client)
    (captured ambient : Make.HttpClient)
    (gspec : Make.GetMakerSpec) (mspec : Make.MakerSpec) (params : option Make.Params) :
  let client := {| Client.headers := config ≫= Client.headers;
                   Client.error := config ≫= Client.error |} in
  Client.m_get (Client.make config captured) gspec params ambient =
    Client.get client gspec params captured /\
  Client.m_post (Client.make config captured) mspec params ambient =
    Client.post client mspec params captured /\
  Client.m_put (Client.make config captured) mspec params ambient =
    Client.put client mspec params captured /\
  Client.m_del (Client.make config captured) mspec params ambient =
    Client.del client mspec params captured.
Proof. repeat split; reflexivity. Qed.

(** X16. A client without defaults, and so also [Client.make()] without a
    configuration, compiles the routes of the free constructors: every
    method is the free constructor of the same name on the same spec. *)
Theorem X16_no_defaults_is_free_constructor
    (captured ambient : Make.HttpClient)
    (gspec : Make.GetMakerSpec) (mspec : Make.MakerSpec) (params : option Make.Params) :
  let bare := {| Client.headers := None; Client.error := None |} in
  Client.get bare gspec = Make.get gspec /\
  Client.post bare mspec = Make.post mspec /\
  Client.put bare mspec = Make.put mspec /\
  Client.del bare mspec = Make.del mspec /\
  Client.m_get (Client.make None captured) gspec params ambient =
    Make.get gspec params captured /\
  Client.m_post (Client.make None captured) mspec params ambient =
    Make.post mspec params captured /\
  Client.m_put (Client.make None captured) mspec params ambient =
    Make.put mspec params captured /\
  Client.m_del (Client.make None captured) mspec params ambient =
    Make.del mspec params captured.
Proof.
  unfold Client.make, Client.provideFactory, Client.provideFn, Client.provide,
    Client.get, Client.post, Client.put, Client.del,
    Make.get, Make.post, Make.put, Make.del. simpl.
  rewrite !new_Route_no_defaults. repeat split; reflexivity.
Qed.

End ClientFacts.

(** ** The further properties at concrete routes *)

Lemma X2_witness :
  Make.make (P := Demo.platform) Demo.getWithSession (Demo.headersParams "v2")
    Demo.offline =
    ([Make.CallHeaders (V := Demo.values) "v2"],
     Make.Failure (V := Demo.values) (Make.Fail (V := Demo.values) "no session")) /\
  Make.executed
    (Make.events (Make.make (P := Demo.platform) Demo.getWithSession
                    (Demo.headersParams "v2") Demo.offline)) = [].
Proof.
  apply (X2_headers_failure_stops (P := Demo.platform) Demo.getWithSession
           (Demo.headersParams "v2") Demo.offline
           (fun _ => inl "no session") "v2" "no session").
  - reflexivity.
  - reflexivity.
  - reflexivity.
Defined.

Lemma X3_witness :
  Make.make (P := Demo.strictPlatform) Demo.createTodo (Demo.bodyParams "todo")
    (Demo.answering Demo.okTodo) =
    ([], Make.Failure (V := Demo.values)
           (Make.HttpBodyError (V := Demo.values) "cannot serialise")) /\
  Make.executed
    (Make.events (Make.make (P := Demo.strictPlatform) Demo.createTodo
                    (Demo.bodyParams "todo") (Demo.answering Demo.okTodo))) = [].
Proof.
  apply (X3_body_error_stops (P := Demo.strictPlatform) Demo.createTodo
           (Demo.bodyParams "todo") (Demo.answering Demo.okTodo)
           [] None Demo.NonEmptyString "todo" "cannot serialise").
  - reflexivity.
  - reflexivity.
  - reflexivity.
  - reflexivity.
Defined.

Lemma X4_witness :
  Make.make (P := Demo.platform) Demo.getTodoFiltered Demo.noParams Demo.offline =
  ([Make.Execute (Demo.request GET (Make.UrlString "/todos/1") None None)],
   Make.Failure (V := Demo.values) (Make.RequestError (V := Demo.values) "offline")).
Proof.
  apply (X4_transport_failure_propagates (P := Demo.platform) Demo.getTodoFiltered
           Demo.noParams Demo.offline []
           (Demo.request GET (Make.UrlString "/todos/1") None None)).
  - reflexivity.
  - reflexivity.
Defined.

Lemma X5_witness :
  Make.make (P := Demo.platform) Demo.getTodoOrFail Demo.noParams
    (Demo.answering Demo.okTodo) =
  ([Make.Execute (Demo.request GET (Make.UrlString "/todos/1") None None);
    Make.GetResponse Demo.okTodo],
   Make.Success (Make.Raw Demo.okTodo)).
Proof.
  apply (X5_ok_status_resolves_response (P := Demo.platform) Demo.getTodoOrFail
           Demo.noParams (Demo.answering Demo.okTodo) []
           (Demo.request GET (Make.UrlString "/todos/1") None None) Demo.okTodo).
  - reflexivity.
  - reflexivity.
  - simpl. lia.
Defined.

Lemma X6_witness :
  Make.make (P := Demo.platform)
    (Make.withResponse (Some (Make.OutputSchema (V := Demo.values) Demo.AnyString))
       Demo.getTodoOrFail)
    Demo.noParams (Demo.answering Demo.notFound) =
  Make.make (P := Demo.platform) Demo.getTodoOrFail Demo.noParams
    (Demo.answering Demo.notFound).
Proof.
  apply (X6_failed_ignores_response_descriptor (P := Demo.platform)
           Demo.getTodoOrFail Demo.noParams (Demo.answering Demo.notFound)
           [Make.Execute (Demo.request GET (Make.UrlString "/todos/1") None None)]
           Demo.notFound Demo.requestFailed).
  - reflexivity.
  - reflexivity.
Defined.

Lemma X7_witness :
  Make.req_method
    (Demo.request POST (Make.UrlString "/todos") None (Some "{_id:Effect}")) = POST /\
  Make.req_bodyHeaders
    (Demo.request POST (Make.UrlString "/todos") None (Some "{_id:Effect}")) =
    {[ "content-type" := "application/json"; "content-length" := "12" ]}.
Proof.
  destruct (X7_request_assembly (P := Demo.platform) Demo.createTodo
              (Demo.bodyParams "todo") []
              (Demo.request POST (Make.UrlString "/todos") None (Some "{_id:Effect}")))
    as (Hm & _ & _ & _ & _ & _ & _ & Hh).
  - reflexivity.
  - split; [exact Hm|]. rewrite Hh. reflexivity.
Defined.

Lemma X8_witness :
  Make.prepare (P := Demo.platform) Demo.getTodoById (Demo.allParams "42" "v2" "b") =
  ([Make.CallUrl (V := Demo.values) "42"; Make.CallHeaders (V := Demo.values) "v2"],
   Make.Success
     (Demo.request GET (Make.UrlString "/todos/42")
        (Some (Make.HeadersValue {[ "x-api-version" := "v2" ]})) None)) /\
  Make.req_url
    (Demo.request GET (Make.UrlString "/todos/42")
       (Some (Make.HeadersValue {[ "x-api-version" := "v2" ]})) None) =
  Make.UrlString "/todos/42".
Proof.
  assert (E : Make.prepare (P := Demo.platform) Demo.getTodoById
                (Demo.allParams "42" "v2" "b") =
              ([Make.CallUrl (V := Demo.values) "42";
                Make.CallHeaders (V := Demo.values) "v2"],
               Make.Success
                 (Demo.request GET (Make.UrlString "/todos/42")
                    (Some (Make.HeadersValue {[ "x-api-version" := "v2" ]})) None)))
    by reflexivity.
  split; [exact E|].
  destruct (X8_dynamic_descriptors (P := Demo.platform) Demo.getTodoById
              (Demo.allParams "42" "v2" "b") _ _ E) as (Hu & _ & _).
  apply (Hu (fun id => "/todos/" +:+ id) "42"); reflexivity.
Defined.

Lemma X9_witness :
  Make.req_method (Demo.request GET (Make.UrlString "/todos/1") None None) = GET /\
  Make.req_body (Demo.request GET (Make.UrlString "/todos/1") None None) = None.
Proof.
  destruct (X9_method_constructors (P := Demo.platform)
              (Demo.getSpec Absent Absent)
              (Demo.perCall Absent Absent)
              (Demo.allParams "1" "v2" "todo") (Demo.answering Demo.okTodo)
              (Demo.request GET (Make.UrlString "/todos/1") None None))
    as (Hg & _).
  apply Hg. left. reflexivity.
Defined.

Lemma X10_witness :
  exists req r,
    Make.executed
      (Make.events (Make.make (P := Demo.platform) Demo.getTodo Demo.noParams
                      (Demo.answering Demo.notFound))) = [req] /\
    Make.selectClient Demo.getTodo (Demo.answering Demo.notFound) req =
      Make.Success r /\
    Make.Raw Demo.notFound = Make.Raw r.
Proof.
  apply (X10_output_shape (P := Demo.platform) Demo.getTodo Demo.noParams
           (Demo.answering Demo.notFound) (Make.Raw Demo.notFound)).
  reflexivity.
Defined.

Lemma X11_witness :
  exists req r,
    Make.executed
      (Make.events (Make.make (P := Demo.platform) Demo.getTodoDecoded Demo.noParams
                      (Demo.answering Demo.okEmptyString))) = [req] /\
    Make.selectClient Demo.getTodoDecoded (Demo.answering Demo.okEmptyString) req =
      Make.Success r.
Proof.
  apply (X11_resolution_after_response (P := Demo.platform) Demo.getTodoDecoded
           Demo.noParams (Demo.answering Demo.okEmptyString)
           (Make.GetResponse Demo.okEmptyString)).
  - reflexivity.
  - right. left. reflexivity.
Defined.

Lemma X12_witness :
  Layer.rewrite Demo.withToken
    (Layer.rewrite Demo.withToken (Demo.platformRequest "/todos" ∅)) =
  Layer.rewrite Demo.withToken (Demo.platformRequest "/todos" ∅).
Proof.
  apply (X12_rewrite_idempotent (V := Demo.values) Demo.withToken
           (Demo.platformRequest "/todos" ∅)).
  reflexivity.
Defined.

Lemma X13_witness :
  Layer.req_url
    (Layer.rewrite Demo.relativeBase
       (Layer.rewrite Demo.relativeBase (Demo.platformRequest "/todos" ∅))) =
  "/api/api/todos".
Proof.
  apply (X13_relative_base_prefixed_again (V := Demo.values) Demo.relativeBase
           (Demo.platformRequest "/todos" ∅)).
  - reflexivity.
  - reflexivity.
Defined.

Lemma X14_witness :
  Layer.req_headers
    (Layer.rewrite Demo.withToken
       (Demo.platformRequest "/todos"
          {[ "accept" := "application/json"; "authorization" := "Basic abc" ]}))
    !! "accept" = Some "application/json" /\
  Layer.req_headers
    (Layer.rewrite Demo.withToken
       (Demo.platformRequest "/todos"
          {[ "accept" := "application/json"; "authorization" := "Basic abc" ]}))
    !! "authorization" = Some "Bearer ey".
Proof.
  destruct (X14_other_headers_kept (V := Demo.values) Demo.withToken
              (Demo.platformRequest "/todos"
                 {[ "accept" := "application/json";
                    "authorization" := "Basic abc" ]})) as [Hk Ha].
  split.
  - rewrite Hk; [reflexivity|]. discriminate.
  - apply (Ha "ey"); [reflexivity|discriminate].
Defined.

Lemma X18_witness :
  Make.make (P := Demo.platform) Demo.getTodoOrFail (Demo.allParams "42" "v2" "todo")
    (Demo.answering Demo.notFound) =
  Make.make (P := Demo.platform) Demo.getTodoOrFail None
    (Demo.answering Demo.notFound).
Proof.
  apply (X18_undeclared_parameters_ignored (P := Demo.platform) Demo.getTodoOrFail
           (Demo.allParams "42" "v2" "todo") (Demo.answering Demo.notFound)).
  - intros f. discriminate.
  - intros g. discriminate.
  - reflexivity.
Defined.
